(** * Deep Research Agent backend: tools, DuckDuckGo service and request model

    A shallow embedding of
    - [src/backend/src/agui/tools.py] (the AG-UI tools [search_google],
      [create_research_plan] and [synthesize_answer]),
    - [src/backend/src/services/duckduckgo_search.py]
      ([DuckDuckGoSearchService]),
    - [src/backend/src/api/routes.py] (the [ResearchRequest] body model),
    followed by the properties proved about them.

    Conventions of the embedding.
    - A Python [str] is a [string]; one character of the model is one code
      point below 256.
    - A Python [int] is a [Z]; positions produced by [enumerate] and lengths
      are [nat].
    - The float literals of the source ([0.3], [0.5], [0.85]) are the exact
      rationals they denote, in [Q].
    - A call either returns a value or raises an exception: [outcome].
    - Calls that leave the program (the logger, the Azure OpenAI service, the
      search providers, [uuid.uuid4]) are events of a free monad [io]; an
      environment answers every event from the history of the run, and [run]
      gives the outcome of a program together with the events it performed.
    - A [dict] read with [.get] is a [gmap string pyval]; a [dict] built by a
      literal with fixed keys is a record, with [option] for a key that only
      some literals carry. *)

From Stdlib Require Import QArith Ascii String.
From stdpp Require Import base option list gmap strings pretty.

Local Open Scope list_scope.

(** ** Python values, strings and exceptions *)

Module Py.

(** An exception object: its class name, its message ([str(e)]) and the
    exception it was raised [from], if any.  Only instances of [Exception]
    are modelled, which is what [except Exception] catches. *)
#[warnings="-register-all"]
Inductive exn : Type :=
| Exn (cls : string) (msg : string) (cause : option exn).

Definition exn_class (e : exn) : string := let 'Exn c _ _ := e in c.
(** [str(e)] *)
Definition exn_str (e : exn) : string := let 'Exn _ m _ := e in m.
(** [e.__cause__] *)
Definition exn_cause (e : exn) : option exn := let 'Exn _ _ c := e in c.

(** What a call does: it returns or it raises. *)
Inductive outcome (A : Type) : Type :=
| Returned (a : A)
| Raised (e : exn).
Arguments Returned {A} a.
Arguments Raised {A} e.

Definition is_returned {A} (o : outcome A) : bool :=
  match o with Returned _ => true | Raised _ => false end.

(** The scalar values a JSON caller can store under a key of a search
    result. *)
Inductive pyval : Type :=
| VNone
| VBool (b : bool)
| VInt (z : Z)
| VStr (s : string).

#[global] Instance pyval_eq_dec : EqDecision pyval.
Proof. solve_decision. Defined.

(** [str(v)], as an f-string field [{v}] renders it. *)
Definition py_str (v : pyval) : string :=
  match v with
  | VNone => "None"
  | VBool true => "True"
  | VBool false => "False"
  | VInt z => pretty z
  | VStr s => s
  end.

Definition type_name (v : pyval) : string :=
  match v with
  | VNone => "NoneType"
  | VBool _ => "bool"
  | VInt _ => "int"
  | VStr _ => "str"
  end.

(** [s[:n]] for [n >= 0]: the first [n] characters, all of [s] when it is
    shorter. *)
Fixpoint str_take (n : nat) (s : string) : string :=
  match n, s with
  | O, _ => ""
  | S _, EmptyString => ""
  | S n', String c s' => String c (str_take n' s')
  end.
#[global] Arguments str_take : simpl never.

(** [v[:n]]: a string is sliced, the other scalars are not subscriptable. *)
Definition py_slice_to (n : nat) (v : pyval) : outcome pyval :=
  match v with
  | VStr s => Returned (VStr (str_take n s))
  | _ => Raised (Exn "TypeError"
                     ("'" +:+ type_name v +:+ "' object is not subscriptable") None)
  end.

Definition nl : string := String (ascii_of_nat 10) EmptyString.

(** [c.isspace()] for a code point below 256. *)
Definition is_space (c : ascii) : bool :=
  let n := nat_of_ascii c in
  (((9 <=? n) && (n <=? 13)) || ((28 <=? n) && (n <=? 32))
   || (n =? 133) || (n =? 160))%nat.

Fixpoint lstrip (s : string) : string :=
  match s with
  | EmptyString => EmptyString
  | String c s' => if is_space c then lstrip s' else s
  end.

Definition rstrip (s : string) : string := String.rev (lstrip (String.rev s)).

(** [s.strip()] *)
Definition strip (s : string) : string := rstrip (lstrip s).
#[global] Arguments strip : simpl never.

(** [s.split(sep)] for a one-character separator: never the empty list. *)
Fixpoint split_char (sep : ascii) (s : string) : list string :=
  match s with
  | EmptyString => [EmptyString]
  | String c s' =>
      if Ascii.eqb c sep then EmptyString :: split_char sep s'
      else match split_char sep s' with
           | w :: ws => String c w :: ws
           | [] => [String c EmptyString]
           end
  end.

(** [sep.join(parts)] *)
Definition join (sep : string) (parts : list string) : string :=
  String.concat sep parts.

(** [c.lower()] for a code point below 256. *)
Definition lower_char (c : ascii) : ascii :=
  let n := nat_of_ascii c in
  if (((65 <=? n) && (n <=? 90))
      || ((192 <=? n) && (n <=? 222) && negb (n =? 215)))%nat
  then ascii_of_nat (n + 32)%nat else c.

Fixpoint lower (s : string) : string :=
  match s with
  | EmptyString => EmptyString
  | String c s' => String (lower_char c) (lower s')
  end.

(** [bool(s)] of a string: non-empty. *)
Definition truthy (s : string) : bool :=
  match s with EmptyString => false | _ => true end.

(** [enumerate(l, start)] *)
Fixpoint enumerate {A} (start : nat) (l : list A) : list (nat * A) :=
  match l with
  | [] => []
  | x :: l' => (start, x) :: enumerate (S start) l'
  end.

(** [d.get(key, dflt)] *)
Definition dict_get (d : gmap string pyval) (key : string) (dflt : pyval) : pyval :=
  default dflt (d !! key).

(** [t] occurs in [s]. *)
Definition substring_of (t s : string) : Prop :=
  ∃ pre post, s = pre +:+ t +:+ post.

End Py.

(** ** Programs with external calls *)

Module IO.
Import Py.

Section Free.
Context {E : Type → Type}.

(** A program returns, raises, or performs an event and goes on with the
    answer. *)
Inductive io (A : Type) : Type :=
| Ret (a : A)
| Throw (e : exn)
| Vis (X : Type) (ev : E X) (k : X → io A).
Arguments Ret {A} a.
Arguments Throw {A} e.
Arguments Vis {A X} ev k.

Fixpoint bind {A B} (p : io A) (f : A → io B) : io B :=
  match p with
  | Ret a => f a
  | Throw e => Throw e
  | Vis ev k => Vis ev (λ x, bind (k x) f)
  end.

(** [try: body  except Exception as e: handler e] *)
Fixpoint try_except {A} (body : io A) (handler : exn → io A) : io A :=
  match body with
  | Ret a => Ret a
  | Throw e => handler e
  | Vis ev k => Vis ev (λ x, try_except (k x) handler)
  end.

(** An event that cannot fail. *)
Definition trigger {X} (ev : E X) : io X := Vis ev Ret.

(** A call that returns or raises; an exception propagates. *)
Definition of_outcome {A} (o : outcome A) : io A :=
  match o with
  | Returned a => Ret a
  | Raised e => Throw e
  end.

Definition call {X} (ev : E (outcome X)) : io X := Vis ev of_outcome.

(** [for x in xs: s = body x s] *)
Fixpoint for_in {X S} (xs : list X) (body : X → S → io S) (s : S) : io S :=
  match xs with
  | [] => Ret s
  | x :: xs' => bind (body x s) (for_in xs' body)
  end.

(** One performed event with the answer it got. *)
Inductive event : Type :=
| Event (X : Type) (ev : E X) (x : X).

(** The world outside the program: it answers an event knowing the
    events performed so far. *)
Definition env : Type := ∀ X, list event → E X → X.

(** Runs [p] after the events [hist]; gives the outcome and the events
    performed by [p], oldest first. *)
Fixpoint run {A} (w : env) (hist : list event) (p : io A)
  : outcome A * list event :=
  match p with
  | Ret a => (Returned a, [])
  | Throw e => (Raised e, [])
  | Vis ev k =>
      let x := w _ hist ev in
      let '(o, t) := run w (hist ++ [Event _ ev x]) (k x) in
      (o, Event _ ev x :: t)
  end.

(** The events [t], performed after [hist], carry the answers of [w]. *)
Fixpoint answered_by (w : env) (hist t : list event) : Prop :=
  match t with
  | [] => True
  | Event X ev x :: t' => x = w X hist ev ∧ answered_by w (hist ++ [Event X ev x]) t'
  end.

End Free.

Arguments io : clear implicits.
Arguments event : clear implicits.
Arguments env : clear implicits.
Arguments Ret {E A} a.
Arguments Throw {E A} e.
Arguments Vis {E A X} ev k.
Arguments Event {E X} ev x.

#[global] Instance io_ret {E} : MRet (io E) := λ A a, Ret a.
#[global] Instance io_mbind {E} : MBind (io E) := λ A B f p, bind p f.

End IO.

(** ** Declarations shared by the embedded files *)

Module Models.

(** The members of the [SearchSource] enum that the embedded files name
    ([SearchSource.GOOGLE], [SearchSource.ARXIV],
    [SearchSource.DUCKDUCKGO]). *)
Inductive SearchSource : Type := GOOGLE | ARXIV | DUCKDUCKGO.

#[global] Instance SearchSource_eq_dec : EqDecision SearchSource.
Proof. solve_decision. Defined.

End Models.

(** ** [agui/tools.py] *)

Module Tools.
Import Py IO Models.

(** One chat message, [{"role": ..., "content": ...}]. *)
Record message : Type := { role : string; content : string }.

(** An entry of [result_dicts] in [search_google]. *)
Record result_dict : Type := {
  rd_title : string;
  rd_url : string;
  rd_snippet : string;
  rd_source : string;
  rd_relevance_score : Q;
}.

(** The dict returned by [search_google]; the key ["error"] exists only in
    the literal of the [except] branch. *)
Record search_reply : Type := {
  sr_query : string;
  sr_source : string;
  sr_error : option string;
  sr_results_count : nat;
  sr_results : list result_dict;
}.

(** An entry of [search_steps] in [create_research_plan]. *)
Record search_step : Type := {
  step_description : string;
  step_keywords : list string;
  step_sources : list string;
}.

(** The dict returned by [create_research_plan]: ["strategy"] exists only
    in the plan, ["error"] only in the literal of the [except] branch. *)
Record plan_dict : Type := {
  plan_query : string;
  plan_strategy : option string;
  plan_error : option string;
  plan_keywords : list string;
  plan_search_steps : list search_step;
  plan_sources : list string;
}.

(** An entry of [sources] in [synthesize_answer]. *)
Record source_dict : Type := {
  src_index : nat;
  src_title : pyval;
  src_url : pyval;
  src_snippet : pyval;
}.

(** The dict returned by [synthesize_answer]: ["error"] exists in the two
    literals that report a problem, ["sources_count"] and ["confidence"]
    only in the literal built after the model answered. *)
Record answer_dict : Type := {
  ans_query : string;
  ans_error : option string;
  ans_content : string;
  ans_sources : list source_dict;
  ans_sources_count : option nat;
  ans_confidence : option Q;
}.

Section WithServices.
(** What [AzureOpenAIService.chat_completion] returns, and the
    [SearchResult] model with the attributes [search_google] reads; both
    are declared outside the embedded files. *)
Context {response SearchResult : Type}.
Context (sr_title sr_url_str sr_snippet sr_source_value : SearchResult → string).
Context (sr_relevance_score : SearchResult → Q).

(** The calls that leave [tools.py].  [GetOpenAIService] and
    [GetGoogleService] are the get-or-create accessors of the module
    singletons; creating a service can raise. *)
Inductive toolsE : Type → Type :=
| LoggerInfo (msg : string) : toolsE unit
| LoggerError (msg : string) : toolsE unit
| GetGoogleService : toolsE (outcome unit)
| Uuid4 : toolsE string
| GoogleSearch (query query_id : string) (num_results : Z)
  : toolsE (outcome (list SearchResult))
| GetOpenAIService : toolsE (outcome unit)
| ChatCompletion (messages : list message) (temperature : Q)
  : toolsE (outcome response)
| ExtractText (r : response) : toolsE (outcome string).

(** *** [search_google] *)

Definition to_result_dict (r : SearchResult) : result_dict :=
  {| rd_title := sr_title r;
     rd_url := sr_url_str r;
     rd_snippet := sr_snippet r;
     rd_source := sr_source_value r;
     rd_relevance_score := sr_relevance_score r |}.

Definition search_google (query : string) (max_results : Z)
  : io toolsE search_reply :=
  _ ← trigger (LoggerInfo ("Executing Google search: " +:+ query));
  try_except
    (_ ← call GetGoogleService;
     query_id ← trigger Uuid4;
     results ← call (GoogleSearch query query_id max_results);
     let result_dicts := map to_result_dict results in
     _ ← trigger (LoggerInfo ("Google search found "
                              +:+ pretty (length result_dicts) +:+ " results"));
     mret {| sr_query := query;
             sr_source := "google";
             sr_error := None;
             sr_results_count := length result_dicts;
             sr_results := result_dicts |})
    (λ e,
     _ ← trigger (LoggerError ("Google search failed: " +:+ exn_str e));
     mret {| sr_query := query;
             sr_source := "google";
             sr_error := Some (exn_str e);
             sr_results_count := 0;
             sr_results := [] |}).

(** *** [create_research_plan] *)

Definition keyword_prompt (query : string) : string :=
  "Analyze this research question and generate 5-8 relevant search keywords:"
  +:+ nl +:+ nl +:+ "Question: " +:+ query +:+ nl +:+ nl
  +:+ "Return only the keywords, one per line, no numbering or bullets.".

(** [[k.strip() for k in keywords_text.strip().split('\n') if k.strip()]] *)
Definition parse_keywords (keywords_text : string) : list string :=
  map strip
      (filter (λ k, truthy (strip k) = true)
              (split_char (ascii_of_nat 10) (strip keywords_text))).

(** The loop filling [source_enums]; the list is not read afterwards. *)
Fixpoint source_enums (sources : list string) : list SearchSource :=
  match sources with
  | [] => []
  | src :: rest =>
      (if String.eqb (lower src) "google" then [GOOGLE]
       else if String.eqb (lower src) "arxiv" then [ARXIV]
       else []) ++ source_enums rest
  end.

(** The two [search_steps.append] statements. *)
Definition build_search_steps (query : string) (keywords sources : list string)
  : list search_step :=
  let search_steps := [] in
  let search_steps :=
    search_steps ++ [ {| step_description := "Search for main topic: " +:+ query;
                         step_keywords := take 3 keywords;
                         step_sources := sources |} ] in
  if (3 <? length keywords)%nat
  then search_steps
         ++ [ {| step_description := "Search for specific aspects and details";
                 step_keywords := drop 3 keywords;
                 step_sources := sources |} ]
  else search_steps.

Definition strategy_prompt (query : string) (keywords : list string) : string :=
  "Create a brief research strategy summary (2-3 sentences) for this question:"
  +:+ nl +:+ "Question: " +:+ query
  +:+ nl +:+ "Keywords: " +:+ join ", " keywords.

Definition create_research_plan (query : string) (sources : option (list string))
  : io toolsE plan_dict :=
  _ ← trigger (LoggerInfo ("Creating research plan for: " +:+ query));
  let sources := default ["google"; "arxiv"] sources in
  try_except
    (_ ← call GetOpenAIService;
     let messages := [ {| role := "user"; content := keyword_prompt query |} ] in
     keywords_response ← call (ChatCompletion messages (3 # 10));
     keywords_text ← call (ExtractText keywords_response);
     let keywords := parse_keywords keywords_text in
     let _ := source_enums sources in
     let search_steps := build_search_steps query keywords sources in
     let messages :=
       [ {| role := "user"; content := strategy_prompt query keywords |} ] in
     strategy_response ← call (ChatCompletion messages (5 # 10));
     strategy ← call (ExtractText strategy_response);
     let plan := {| plan_query := query;
                    plan_strategy := Some (strip strategy);
                    plan_error := None;
                    plan_keywords := keywords;
                    plan_search_steps := search_steps;
                    plan_sources := sources |} in
     _ ← trigger (LoggerInfo ("Research plan created with "
                              +:+ pretty (length keywords) +:+ " keywords and "
                              +:+ pretty (length search_steps) +:+ " steps"));
     mret plan)
    (λ e,
     _ ← trigger (LoggerError ("Failed to create research plan: " +:+ exn_str e));
     mret {| plan_query := query;
             plan_strategy := None;
             plan_error := Some (exn_str e);
             plan_keywords := [];
             plan_search_steps := [];
             plan_sources := sources |}).

(** *** [synthesize_answer] *)

(** One turn of [for i, result in enumerate(search_results[:10], 1)],
    on the pair [(context_parts, sources)]. *)
Definition synthesize_loop_body (item : nat * gmap string pyval)
    (acc : list string * list source_dict)
  : io toolsE (list string * list source_dict) :=
  let '(i, result) := item in
  let '(context_parts, sources) := acc in
  let title := dict_get result "title" (VStr "Unknown") in
  let snippet := dict_get result "snippet" (VStr "") in
  let url := dict_get result "url" (VStr "") in
  let context_parts :=
    context_parts
      ++ [ "[" +:+ pretty i +:+ "] " +:+ py_str title +:+ nl +:+ py_str snippet ] in
  short ← of_outcome (py_slice_to 200 snippet);
  mret (context_parts,
        sources ++ [ {| src_index := i;
                        src_title := title;
                        src_url := url;
                        src_snippet := short |} ]).

Definition synthesis_prompt (query context : string) : string :=
  "Based on the following search results, provide a comprehensive answer to the research question."
  +:+ nl +:+ "Include citations using [n] format to reference the sources."
  +:+ nl +:+ nl +:+ "Research Question: " +:+ query
  +:+ nl +:+ nl +:+ "Search Results:"
  +:+ nl +:+ context
  +:+ nl +:+ nl +:+ "Provide a well-structured answer with:"
  +:+ nl +:+ "1. A clear introduction"
  +:+ nl +:+ "2. Main findings and details"
  +:+ nl +:+ "3. A brief conclusion"
  +:+ nl +:+ "4. Use [n] citations to reference sources"
  +:+ nl +:+ nl +:+ "Answer:".

Definition synthesize_answer (query : string)
    (search_results : option (list (gmap string pyval)))
  : io toolsE answer_dict :=
  _ ← trigger (LoggerInfo ("Synthesizing answer for: " +:+ query));
  let search_results := default [] search_results in
  match search_results with
  | [] =>
      mret {| ans_query := query;
              ans_error := Some "No search results provided";
              ans_content :=
                "I couldn't find relevant information to answer your question.";
              ans_sources := [];
              ans_sources_count := None;
              ans_confidence := None |}
  | _ :: _ =>
      try_except
        (_ ← call GetOpenAIService;
         '(context_parts, sources) ←
           for_in (enumerate 1 (take 10 search_results))
                  synthesize_loop_body ([], []);
         let context := join (nl +:+ nl) context_parts in
         let messages :=
           [ {| role := "user"; content := synthesis_prompt query context |} ] in
         answer_response ← call (ChatCompletion messages (5 # 10));
         answer_content ← call (ExtractText answer_response);
         let result := {| ans_query := query;
                          ans_error := None;
                          ans_content := strip answer_content;
                          ans_sources := sources;
                          ans_sources_count := Some (length sources);
                          ans_confidence := Some (85 # 100) |} in
         _ ← trigger (LoggerInfo ("Answer synthesized with "
                                  +:+ pretty (length sources) +:+ " sources"));
         mret result)
        (λ e,
         _ ← trigger (LoggerError ("Failed to synthesize answer: " +:+ exn_str e));
         mret {| ans_query := query;
                 ans_error := Some (exn_str e);
                 ans_content := "An error occurred while synthesizing the answer.";
                 ans_sources := [];
                 ans_sources_count := None;
                 ans_confidence := None |})
  end.

End WithServices.

End Tools.

(** ** [services/duckduckgo_search.py] *)

Module DuckDuckGo.
Import Py IO Models.

Section WithModels.
(** The [UUID] alias and the [SearchResult] model are declared outside
    the embedded files; building a [SearchResult] validates its fields
    and can raise. *)
Context {UUID SearchResult : Type}.
Context (SearchResult_init :
           UUID → SearchSource → pyval → pyval → pyval → outcome SearchResult).

(** [self.ddgs.text(query, max_results=...)], read to the end by
    [list(results)]. *)
Inductive ddgE : Type → Type :=
| DdgsText (query : string) (max_results : Z)
  : ddgE (outcome (list (gmap string pyval))).

(** One turn of [for item in list(results)]. *)
Definition append_result (query_id : UUID) (item : gmap string pyval)
    (search_results : list SearchResult) : io ddgE (list SearchResult) :=
  r ← of_outcome (SearchResult_init query_id DUCKDUCKGO
                    (dict_get item "title" (VStr ""))
                    (dict_get item "href" (VStr ""))
                    (dict_get item "body" (VStr "")));
  mret (search_results ++ [r]).

(** [Exception(f"DuckDuckGo Search error: {str(e)}")], raised [from e]. *)
Definition wrapped (e : exn) : exn :=
  Exn "Exception" ("DuckDuckGo Search error: " +:+ exn_str e) (Some e).

(** The inner function [_run_sync] of [search]. *)
Definition run_sync (query : string) (query_id : UUID) (num_results : Z)
  : io ddgE (list SearchResult) :=
  try_except
    (results ← call (DdgsText query (Z.min num_results 10));
     search_results ← for_in results (append_result query_id) [];
     mret search_results)
    (λ e, Throw (wrapped e)).

(** [search]: [_run_sync] on a worker thread, awaited. *)
Definition search (query : string) (query_id : UUID) (num_results : Z)
  : io ddgE (list SearchResult) :=
  run_sync query query_id num_results.

Definition search_with_keywords (query_id : UUID) (keywords : list string)
    (max_results : Z) : io ddgE (list SearchResult) :=
  let search_query := join " " keywords in
  search search_query query_id max_results.

End WithModels.

End DuckDuckGo.

(** ** [api/routes.py]: the request body of [POST /research] *)

Module Routes.
Import Py IO Models.

(** The JSON body as it arrives: each of the two keys is absent or holds a
    value. *)
Record json_body : Type := {
  body_content : option pyval;
  body_search_sources : option (list pyval);
}.

(** A validated [ResearchRequest]. *)
Record ResearchRequest : Type := {
  content : string;
  search_sources : list SearchSource;
}.

(** Why a field was refused. *)
Inductive field_error : Type :=
| Missing
| StringType
| StringTooShort (min_length : nat)
| StringTooLong (max_length : nat)
| EnumValue (position : nat)
| TooShort (min_length : nat).

Definition content_min_length : nat := 1.
Definition content_max_length : nat := 2000.
Definition search_sources_min_length : nat := 1.

(** [content: str = Field(..., min_length=1, max_length=2000)] *)
Definition validate_content (v : option pyval) : field_error + string :=
  match v with
  | None => inl Missing
  | Some (VStr s) =>
      if (String.length s <? content_min_length)%nat
      then inl (StringTooShort content_min_length)
      else if (content_max_length <? String.length s)%nat
      then inl (StringTooLong content_max_length)
      else inr s
  | Some _ => inl StringType
  end.

Section WithEnum.
(** [SearchSource(value)]: the member with that value, if any. *)
Context (SearchSource_of_value : pyval → option SearchSource).

(** The items of the list are validated one after the other, every one of
    them: each item that is not the value of a member gives an error of
    its own, with its position, and the members are kept only when no item
    gave an error. *)
Fixpoint validate_items (position : nat) (items : list pyval)
  : list field_error + list SearchSource :=
  match items with
  | [] => inr []
  | v :: rest =>
      match SearchSource_of_value v, validate_items (S position) rest with
      | Some src, inr srcs => inr (src :: srcs)
      | Some _, inl errs => inl errs
      | None, inr _ => inl [EnumValue position]
      | None, inl errs => inl (EnumValue position :: errs)
      end
  end.

(** [search_sources: List[SearchSource] = Field(..., min_length=1)]: the
    length is checked on the validated list, so only when every item is a
    member. *)
Definition validate_search_sources (v : option (list pyval))
  : list field_error + list SearchSource :=
  match v with
  | None => inl [Missing]
  | Some items =>
      match validate_items 0 items with
      | inl errs => inl errs
      | inr srcs =>
          if (length srcs <? search_sources_min_length)%nat
          then inl [TooShort search_sources_min_length]
          else inr srcs
      end
  end.

(** Validation of the body against [ResearchRequest]: the errors of both
    fields, those of ["content"] first, or the request. *)
Definition validate (body : json_body)
  : list (string * field_error) + ResearchRequest :=
  match validate_content (body_content body),
        validate_search_sources (body_search_sources body) with
  | inr c, inr srcs => inr {| content := c; search_sources := srcs |}
  | inl e1, inr _ => inl [("content", e1)]
  | inr _, inl errs => inl (pair "search_sources" <$> errs)
  | inl e1, inl errs => inl (("content", e1) :: (pair "search_sources" <$> errs))
  end.

(** What the endpoint answers: the framework's 422 with the validation
    errors, or what the handler produced. *)
Inductive reply (R : Type) : Type :=
| Unprocessable (errors : list (string * field_error))
| Handled (r : R).
Arguments Unprocessable {R} errors.
Arguments Handled {R} r.

(** [POST /research]: the body is validated against the type of the
    handler's parameter, and [submit_research], which creates the
    workflow and runs it from its planning stage on, is entered only
    with a validated request. *)
Definition post_research {E R} (submit_research : ResearchRequest → io E R)
    (body : json_body) : io E (reply R) :=
  match validate body with
  | inl errors => mret (Unprocessable errors)
  | inr request => r ← submit_research request; mret (Handled r)
  end.

End WithEnum.

Arguments Unprocessable {R} errors.
Arguments Handled {R} r.

End Routes.

(** ** Vocabulary of the properties *)

Module ToolsSpec.
Import Py IO Models Tools.

(** The entries [synthesize_answer] presents to the model:
    [search_results[:10]]. *)
Definition max_sources : nat := 10.
Definition presented (search_results : list (gmap string pyval))
  : list (gmap string pyval) := take max_sources search_results.

(** The snippet of a candidate, [result.get("snippet", "")], and its text
    when it is a string. *)
Definition snippet_of (result : gmap string pyval) : pyval :=
  dict_get result "snippet" (VStr "").

Definition snippet_text (result : gmap string pyval) : string :=
  match snippet_of result with VStr s => s | _ => "" end.

Definition has_text_snippet (result : gmap string pyval) : Prop :=
  ∃ s, snippet_of result = VStr s.

(** The source entry and the context part of the candidate presented at
    position [i]. *)
Definition source_entry (i : nat) (result : gmap string pyval) : source_dict :=
  {| src_index := i;
     src_title := dict_get result "title" (VStr "Unknown");
     src_url := dict_get result "url" (VStr "");
     src_snippet := VStr (str_take 200 (snippet_text result)) |}.

Definition context_entry (i : nat) (result : gmap string pyval) : string :=
  "[" +:+ pretty i +:+ "] " +:+ py_str (dict_get result "title" (VStr "Unknown"))
  +:+ nl +:+ py_str (snippet_of result).

(** The messages of the synthesis request and the dict returned once the
    model answered [text], for the presented entries [shown]. *)
Definition synthesis_messages (query : string) (shown : list (gmap string pyval))
  : list message :=
  [ {| role := "user";
       content := synthesis_prompt query
                    (join (nl +:+ nl) (imap (λ k, context_entry (1 + k)) shown)) |} ].

Definition answer_of (query text : string) (shown : list (gmap string pyval))
  : answer_dict :=
  {| ans_query := query;
     ans_error := None;
     ans_content := strip text;
     ans_sources := imap (λ k, source_entry (1 + k)) shown;
     ans_sources_count := Some (length shown);
     ans_confidence := Some (85 # 100) |}.

(** The dicts the tools return when they report a problem. *)
Definition no_results_answer (query : string) : answer_dict :=
  {| ans_query := query;
     ans_error := Some "No search results provided";
     ans_content := "I couldn't find relevant information to answer your question.";
     ans_sources := [];
     ans_sources_count := None;
     ans_confidence := None |}.

Definition error_answer (query : string) (e : exn) : answer_dict :=
  {| ans_query := query;
     ans_error := Some (exn_str e);
     ans_content := "An error occurred while synthesizing the answer.";
     ans_sources := [];
     ans_sources_count := None;
     ans_confidence := None |}.

Definition error_plan (query : string) (sources : list string) (e : exn) : plan_dict :=
  {| plan_query := query;
     plan_strategy := None;
     plan_error := Some (exn_str e);
     plan_keywords := [];
     plan_search_steps := [];
     plan_sources := sources |}.

Definition error_reply (query : string) (e : exn) : search_reply :=
  {| sr_query := query;
     sr_source := "google";
     sr_error := Some (exn_str e);
     sr_results_count := 0;
     sr_results := [] |}.

Section Events.
Context {response SearchResult : Type}.
Local Abbreviation toolsE := (@Tools.toolsE response SearchResult).

Definition failure_of {A} (o : outcome A) : option exn :=
  match o with Returned _ => None | Raised e => Some e end.

(** The exception a call to the text-generation capability (getting the
    service, [chat_completion], [extract_text]) was answered with. *)
Definition capability_failure (ev : event toolsE) : option exn :=
  match ev with
  | Event ev x =>
      match ev in Tools.toolsE T return T → option exn with
      | GetOpenAIService => failure_of
      | ChatCompletion _ _ => failure_of
      | ExtractText _ => failure_of
      | _ => λ _, None
      end x
  end.

(** The exception the search provider was answered with. *)
Definition provider_failure (ev : event toolsE) : option exn :=
  match ev with
  | Event ev x =>
      match ev in Tools.toolsE T return T → option exn with
      | GetGoogleService => failure_of
      | GoogleSearch _ _ _ => failure_of
      | _ => λ _, None
      end x
  end.

(** Whether an event is a call to the text-generation capability. *)
Definition is_capability_call (ev : event toolsE) : bool :=
  match ev with
  | Event ev _ =>
      match ev with
      | GetOpenAIService | ChatCompletion _ _ | ExtractText _ => true
      | _ => false
      end
  end.

(** The messages of a [chat_completion] call. *)
Definition sent_messages (ev : event toolsE) : option (list message) :=
  match ev with
  | Event ev _ =>
      match ev with
      | ChatCompletion messages _ => Some messages
      | _ => None
      end
  end.

(** The text an [extract_text] call returned. *)
Definition extracted_text (ev : event toolsE) : option string :=
  match ev with
  | Event ev x =>
      match ev in Tools.toolsE T return T → option string with
      | ExtractText _ => λ o, match o with Returned s => Some s | Raised _ => None end
      | _ => λ _, None
      end x
  end.

(** The messages written with [logger.error]. *)
Definition logged_error (ev : event toolsE) : option string :=
  match ev with
  | Event ev _ =>
      match ev with
      | LoggerError msg => Some msg
      | _ => None
      end
  end.

End Events.

End ToolsSpec.

(** ** Sample inputs and environments *)

Module Samples.
Import Py IO Models Tools DuckDuckGo Routes.

Definition result_a : gmap string pyval :=
  {[ "title" := VStr "Battery recycling";
     "snippet" := VStr "Hydrometallurgy recovers lithium.";
     "url" := VStr "http://x.com/a" ]}.

(** A candidate without a snippet and with a numeric title. *)
Definition result_b : gmap string pyval :=
  {[ "title" := VInt 2024; "url" := VStr "http://x.com/b" ]}.

(** A candidate whose snippet is [None]. *)
Definition result_c : gmap string pyval :=
  {[ "title" := VStr "Untitled"; "snippet" := VNone ]}.

Definition keywords_reply : string :=
  " battery recycling" +:+ nl +:+ "lithium recovery " +:+ nl.

Definition many_keywords_reply : string :=
  "k1" +:+ nl +:+ "k2" +:+ nl +:+ "k3" +:+ nl +:+ nl +:+ " k4 " +:+ nl +:+ "k5".

(** The [SearchResult] of the samples: title, url and snippet. *)
Definition sample_result : Type := string * string * string.

Definition quota_error : exn := Exn "RuntimeError" "quota exceeded" None.
Definition network_error : exn := Exn "ConnectionError" "network unreachable" None.

(** Every call is answered; the model's answer to the keyword request
    (temperature [0.3]) is [keywords], to any other request a fixed
    text. *)
Definition world_answering (keywords : string) : env (@toolsE string sample_result) :=
  λ X hist ev,
    match ev in toolsE T return T with
    | LoggerInfo _ => tt
    | LoggerError _ => tt
    | GetGoogleService => Returned tt
    | Uuid4 => "7d444840-9dc0-11d1-b245-5ffdce74fad2"
    | GoogleSearch _ _ _ =>
        Returned [ ("Battery recycling", "http://x.com/a",
                    "Hydrometallurgy recovers lithium.") ]
    | GetOpenAIService => Returned tt
    | ChatCompletion _ temperature =>
        Returned (if Qeq_bool temperature (3 # 10) then keywords
                  else "  Recycling recovers metals [1].  ")
    | ExtractText r => Returned r
    end.

(** As [world_answering], but [chat_completion] raises from its
    [failing]-th call on (counted from 0). *)
Definition chat_calls (hist : list (event (@toolsE string sample_result))) : nat :=
  length (filter (λ ev, is_Some (ToolsSpec.sent_messages ev)) hist).

Definition world_chat_failing (failing : nat) : env (@toolsE string sample_result) :=
  λ X hist ev,
    match ev in toolsE T return T with
    | ChatCompletion _ _ =>
        if (chat_calls hist <? failing)%nat
        then Returned keywords_reply
        else Raised quota_error
    | ev' => world_answering keywords_reply _ hist ev'
    end.

(** The Google provider is unreachable. *)
Definition world_google_down : env (@toolsE string sample_result) :=
  λ X hist ev,
    match ev in toolsE T return T with
    | GoogleSearch _ _ _ => Raised network_error
    | ev' => world_answering keywords_reply _ hist ev'
    end.

(** The validation of [SearchResult] in the samples: title, url and
    snippet must be strings and the url non-empty. *)
Definition sample_init (query_id : string) (source : SearchSource)
    (title url snippet : pyval) : outcome sample_result :=
  match title, url, snippet with
  | VStr t, VStr (String c u), VStr s => Returned (t, String c u, s)
  | _, _, _ => Raised (Exn "ValidationError" "1 validation error for SearchResult" None)
  end.

Definition ddg_item : gmap string pyval :=
  {[ "title" := VStr "Battery recycling";
     "href" := VStr "http://x.com/a";
     "body" := VStr "Hydrometallurgy recovers lithium." ]}.

Definition world_ddg_up : env (@ddgE) :=
  λ X hist ev,
    match ev in ddgE T return T with
    | DdgsText _ max_results => Returned (take (Z.to_nat max_results) [ddg_item; ddg_item])
    end.

Definition world_ddg_down : env (@ddgE) :=
  λ X hist ev,
    match ev in ddgE T return T with
    | DdgsText _ _ => Raised network_error
    end.

(** The values of the [SearchSource] members in the samples. *)
Definition sample_source_of_value (v : pyval) : option SearchSource :=
  match v with
  | VStr "google" => Some GOOGLE
  | VStr "arxiv" => Some ARXIV
  | VStr "duckduckgo" => Some DUCKDUCKGO
  | _ => None
  end.

(** A handler that records that it ran. *)
Inductive handlerE : Type → Type :=
| ExecuteQuery (query_content : string) (search_sources : list SearchSource)
  : handlerE string.

Definition sample_handler (request : ResearchRequest) : io handlerE string :=
  trigger (ExecuteQuery (content request) (search_sources request)).

Definition world_handler : env handlerE :=
  λ X hist ev,
    match ev in handlerE T return T with
    | ExecuteQuery _ _ => "answer"
    end.

Definition long_question : string :=
  string_of_list_ascii (replicate 2001 (ascii_of_nat 97)).

End Samples.

(** ** Further vocabulary: keywords, search events *)

Module MoreSpec.
Import Py IO Models Tools.

(** The characters of a string, and the newline character. *)
Definition chars (s : string) : list ascii := list_ascii_of_string s.
Definition newline : ascii := ascii_of_nat 10.

(** Leading white space removed, on the characters. *)
Fixpoint skip_spaces (l : list ascii) : list ascii :=
  match l with
  | [] => []
  | c :: l' => if is_space c then skip_spaces l' else l
  end.

(** A keyword as [parse_keywords] gives them: not empty, no white space at
    either end, no newline inside. *)
Definition clean_keyword (k : string) : Prop :=
  (∃ c, head (chars k) = Some c ∧ is_space c = false)
  ∧ (∃ c, last (chars k) = Some c ∧ is_space c = false)
  ∧ newline ∉ chars k.

Section Events.
Context {response SearchResult : Type}.
Local Abbreviation toolsE := (@Tools.toolsE response SearchResult).

(** Whether an event is a call to the search side of [tools.py]. *)
Definition is_search_call (ev : event toolsE) : bool :=
  match ev with
  | Event ev _ =>
      match ev with
      | GetGoogleService | Uuid4 | GoogleSearch _ _ _ => true
      | _ => false
      end
  end.

(** The temperature of a [chat_completion] call. *)
Definition sent_temperature (ev : event toolsE) : option Q :=
  match ev with
  | Event ev _ =>
      match ev with
      | ChatCompletion _ temperature => Some temperature
      | _ => None
      end
  end.

(** The messages written with [logger.info]. *)
Definition logged_info (ev : event toolsE) : option string :=
  match ev with
  | Event ev _ =>
      match ev with
      | LoggerInfo msg => Some msg
      | _ => None
      end
  end.

End Events.

End MoreSpec.


(** ** Further vocabulary: well-formed request bodies *)

Module RoutesSpec.
Import Py Models Routes.

(** The ["content"] of a body is the string [s], of 1 to 2000 characters. *)
Definition good_content (v : option pyval) (s : string) : Prop :=
  v = Some (VStr s) ∧ 1 ≤ String.length s ≤ 2000.

(** The ["search_sources"] of a body is a non-empty list of values of
    [SearchSource] members, which are [srcs]. *)
Definition good_sources (SearchSource_of_value : pyval → option SearchSource)
    (v : option (list pyval)) (srcs : list SearchSource) : Prop :=
  ∃ items,
    v = Some items
    ∧ items ≠ []
    ∧ Forall2 (λ item src, SearchSource_of_value item = Some src) items srcs.

(** The positions, from [start] on, of the items that are not the value of
    a [SearchSource] member, in increasing order. *)
Definition invalid_positions (SearchSource_of_value : pyval → option SearchSource)
    (start : nat) (items : list pyval) : list nat :=
  omap (λ iv, match SearchSource_of_value iv.2 with
              | None => Some iv.1
              | Some _ => None
              end)
       (enumerate start items).



End RoutesSpec.


(** ** [agui/tools.py]: [search_arxiv] *)

Module ArxivTool.
Import Py IO Models.

Section WithServices.
(** The [SearchResult] model is declared outside the embedded files;
    [sr_authors] is [getattr(r, 'authors', [])] and [sr_published_date_str]
    is [str(getattr(r, 'published_date', ''))]. *)
Context {SearchResult authors : Type}.
Context (sr_title sr_url_str sr_snippet sr_source_value : SearchResult → string).
Context (sr_relevance_score : SearchResult → Q).
Context (sr_authors : SearchResult → authors).
Context (sr_published_date_str : SearchResult → string).

(** An entry of [result_dicts] in [search_arxiv]. *)
Record paper_dict : Type := {
  pd_title : string;
  pd_url : string;
  pd_snippet : string;
  pd_source : string;
  pd_relevance_score : Q;
  pd_authors : authors;
  pd_published_date : string;
}.

(** The dict returned by [search_arxiv]; the key ["error"] exists only in
    the literal of the [except] branch. *)
Record arxiv_reply : Type := {
  ar_query : string;
  ar_source : string;
  ar_error : option string;
  ar_results_count : nat;
  ar_results : list paper_dict;
}.

(** The calls that leave [search_arxiv]. *)
Inductive arxivE : Type → Type :=
| LoggerInfo (msg : string) : arxivE unit
| LoggerError (msg : string) : arxivE unit
| GetArxivService : arxivE (outcome unit)
| Uuid4 : arxivE string
| ArxivSearch (query query_id : string) (max_results : Z)
  : arxivE (outcome (list SearchResult)).

Definition to_paper_dict (r : SearchResult) : paper_dict :=
  {| pd_title := sr_title r;
     pd_url := sr_url_str r;
     pd_snippet := sr_snippet r;
     pd_source := sr_source_value r;
     pd_relevance_score := sr_relevance_score r;
     pd_authors := sr_authors r;
     pd_published_date := sr_published_date_str r |}.

Definition search_arxiv (query : string) (max_results : Z)
  : io arxivE arxiv_reply :=
  _ ← trigger (LoggerInfo ("Executing arXiv search: " +:+ query));
  try_except
    (_ ← call GetArxivService;
     query_id ← trigger Uuid4;
     results ← call (ArxivSearch query query_id max_results);
     let result_dicts := map to_paper_dict results in
     _ ← trigger (LoggerInfo ("arXiv search found "
                              +:+ pretty (length result_dicts) +:+ " results"));
     mret {| ar_query := query;
             ar_source := "arxiv";
             ar_error := None;
             ar_results_count := length result_dicts;
             ar_results := result_dicts |})
    (λ e,
     _ ← trigger (LoggerError ("arXiv search failed: " +:+ exn_str e));
     mret {| ar_query := query;
             ar_source := "arxiv";
             ar_error := Some (exn_str e);
             ar_results_count := 0;
             ar_results := [] |}).

(** The exception the arXiv service was answered with. *)
Definition arxiv_failure (ev : event arxivE) : option exn :=
  match ev with
  | Event ev x =>
      match ev in arxivE T return T → option exn with
      | GetArxivService => ToolsSpec.failure_of
      | ArxivSearch _ _ _ => ToolsSpec.failure_of
      | _ => λ _, None
      end x
  end.

(** What the arXiv service returned. *)
Definition arxiv_found (ev : event arxivE) : option (list SearchResult) :=
  match ev with
  | Event ev x =>
      match ev in arxivE T return T → option (list SearchResult) with
      | ArxivSearch _ _ _ =>
          λ o, match o with Returned found => Some found | Raised _ => None end
      | _ => λ _, None
      end x
  end.

End WithServices.

End ArxivTool.

(** ** [api/middleware.py] *)

Module Middleware.
Import Py IO.

(** The body and status of a [JSONResponse] built by the error handler. *)
Record json_response : Type := {
  status_code : Z;
  error : string;
  message : string;
  details : option string;
}.

Section Dispatch.
(** The request and response objects of the framework, and the class
    hierarchy of the running program: [isinstance e cls] is
    [isinstance(e, cls)]. *)
Context {Request Response : Type}.
Context (isinstance : exn → string → bool).

(** What [dispatch] returns: the response of the rest of the chain, or a
    response of its own. *)
Inductive reply : Type :=
| FromHandler (response : Response)
| Json (response : json_response).

(** The calls that leave [ErrorHandlingMiddleware.dispatch];
    [FormatExc] is [traceback.format_exc()]. *)
Inductive dispatchE : Type → Type :=
| CallNext (request : Request) : dispatchE (outcome Response)
| LoggerWarning (msg : string) : dispatchE unit
| LoggerError (msg : string) : dispatchE unit
| FormatExc : dispatchE string.

(** [ErrorHandlingMiddleware.dispatch]: the [except] clauses are tried in
    the order of the source. *)
Definition dispatch (request : Request) : io dispatchE reply :=
  try_except
    (response ← call (CallNext request);
     mret (FromHandler response))
    (λ e,
     if isinstance e "ValueError" then
       _ ← trigger (LoggerWarning ("Validation error: " +:+ exn_str e));
       mret (Json {| status_code := 400;
                     error := "ValidationError";
                     message := exn_str e;
                     details := None |})
     else if isinstance e "PermissionError" then
       _ ← trigger (LoggerWarning ("Permission error: " +:+ exn_str e));
       mret (Json {| status_code := 403;
                     error := "PermissionError";
                     message := exn_str e;
                     details := None |})
     else if isinstance e "FileNotFoundError" then
       _ ← trigger (LoggerWarning ("Not found error: " +:+ exn_str e));
       mret (Json {| status_code := 404;
                     error := "NotFoundError";
                     message := exn_str e;
                     details := None |})
     else
       trace ← trigger FormatExc;
       _ ← trigger (LoggerError ("Unexpected error: " +:+ exn_str e +:+ nl +:+ trace));
       mret (Json {| status_code := 500;
                     error := "InternalServerError";
                     message := "An unexpected error occurred";
                     details := Some (exn_str e) |})).

End Dispatch.

(** A middleware as [app.add_middleware] receives it, with the options of
    [CORSMiddleware]. *)
Inductive middleware : Type :=
| CORSMiddleware (allow_origins : list string) (allow_credentials : bool)
    (allow_methods allow_headers expose_headers : list string)
| ErrorHandlingMiddleware
| RequestLoggingMiddleware.

Section Setup.
(** [repr_list l] is the text of the list [l] in an f-string. *)
Context (repr_list : list string → string).

(** The calls on the application object and the logger. *)
Inductive setupE : Type → Type :=
| AddMiddleware (m : middleware) : setupE unit
| LoggerInfo (msg : string) : setupE unit.

(** ["*" in allow_origins] *)
Definition has_wildcard (allow_origins : list string) : bool :=
  existsb (String.eqb "*") allow_origins.

Definition setup_cors (allow_origins : option (list string)) : io setupE unit :=
  let allow_origins := default ["*"] allow_origins in
  _ ← trigger (AddMiddleware
                 (CORSMiddleware allow_origins
                    (if has_wildcard allow_origins then false else true)
                    ["*"] ["*"] ["*"]));
  trigger (LoggerInfo ("CORS configured with allowed origins: "
                       +:+ repr_list allow_origins)).

Definition setup_error_handling : io setupE unit :=
  _ ← trigger (AddMiddleware ErrorHandlingMiddleware);
  trigger (LoggerInfo "Error handling middleware configured").

Definition setup_request_logging : io setupE unit :=
  _ ← trigger (AddMiddleware RequestLoggingMiddleware);
  trigger (LoggerInfo "Request logging middleware configured").

Definition setup_all_middleware (allow_origins : option (list string))
    (enable_request_logging : bool) : io setupE unit :=
  _ ← (if enable_request_logging then setup_request_logging else mret ());
  _ ← setup_error_handling;
  _ ← setup_cors allow_origins;
  trigger (LoggerInfo "All middleware configured successfully").

(** The middleware registered by an event. *)
Definition added (ev : event setupE) : option middleware :=
  match ev with
  | Event ev _ =>
      match ev with
      | AddMiddleware m => Some m
      | LoggerInfo _ => None
      end
  end.

End Setup.

End Middleware.

(** ** [main.py]: [serve_frontend] *)

Module Frontend.
Import Py IO.

Section WithPaths.
(** Paths of the file system: [static_dir] is
    [Path(__file__).parent.parent / "static"] and [joinpath p s] is
    [p / s]. *)
Context {Path : Type}.
Context (static_dir : Path) (joinpath : Path → string → Path).

(** [is_file()] and [exists()] *)
Inductive fsE : Type → Type :=
| IsFile (p : Path) : fsE bool
| Exists (p : Path) : fsE bool.

Inductive frontend_reply : Type :=
| NotFound (detail : string)
| FileResponse (p : Path).

Definition api_prefixes : list string :=
  ["research"; "health"; "docs"; "redoc"; "openapi.json"].

(** [full_path.startswith(prefixes)] for a tuple of prefixes. *)
Definition startswith_any (prefixes : list string) (s : string) : bool :=
  existsb (λ p, String.prefix p s) prefixes.

Definition serve_frontend (full_path : string) : io fsE frontend_reply :=
  if startswith_any api_prefixes full_path then
    mret (NotFound "Not found")
  else
    let index_file := joinpath static_dir "index.html" in
    let requested_file := joinpath static_dir full_path in
    is_file ← trigger (IsFile requested_file);
    if is_file : bool then mret (FileResponse requested_file)
    else
      found ← trigger (Exists index_file);
      if found : bool then mret (FileResponse index_file)
      else mret (NotFound "Frontend not found").

End WithPaths.

End Frontend.

(** ** [agui/server.py]: [get_chat_client] *)

Module Server.
Import Py IO.

(** How the chat client authenticates. *)
Inductive auth (credential : Type) : Type :=
| ApiKey (api_key : string)
| Credential (c : credential).
Arguments ApiKey {credential} api_key.
Arguments Credential {credential} c.

Section WithAzure.
(** The credential and client objects of the Azure libraries. *)
Context {credential client : Type}.

Inductive serverE : Type → Type :=
| EnvironGet (name : string) : serverE (option string)
| LoggerInfo (msg : string) : serverE unit
| LoggerWarning (msg : string) : serverE unit
| DefaultAzureCredential : serverE (outcome credential)
| AzureCliCredential : serverE (outcome credential)
| AzureOpenAIChatClient (a : auth credential) (endpoint deployment_name : string)
  : serverE (outcome client).

(** [bool(v)] of an optional string: present and not empty. *)
Definition present (v : option string) : option string :=
  match v with
  | Some (String c s) => Some (String c s)
  | _ => None
  end.

Definition get_chat_client : io serverE client :=
  endpoint ← trigger (EnvironGet "AZURE_OPENAI_ENDPOINT");
  deployment ← trigger (EnvironGet "AZURE_OPENAI_DEPLOYMENT_NAME");
  let deployment_name := default "gpt-4o" deployment in
  api_key ← trigger (EnvironGet "AZURE_OPENAI_API_KEY");
  match present endpoint with
  | None =>
      Throw (Exn "ValueError"
                 "AZURE_OPENAI_ENDPOINT environment variable is required" None)
  | Some endpoint =>
      match present api_key with
      | Some api_key =>
          _ ← trigger (LoggerInfo "Using API key authentication for Azure OpenAI");
          call (AzureOpenAIChatClient (ApiKey api_key) endpoint deployment_name)
      | None =>
          _ ← trigger (LoggerInfo "Using DefaultAzureCredential for Azure OpenAI");
          c ← try_except
                (call DefaultAzureCredential)
                (λ _,
                 _ ← trigger (LoggerWarning
                    "DefaultAzureCredential failed, falling back to AzureCliCredential");
                 call AzureCliCredential);
          call (AzureOpenAIChatClient (Credential c) endpoint deployment_name)
      end
  end.

(** The authentication and endpoint a client was asked for. *)
Definition client_request (ev : event serverE)
  : option (auth credential * string * string) :=
  match ev with
  | Event ev _ =>
      match ev with
      | AzureOpenAIChatClient a endpoint deployment_name =>
          Some (a, endpoint, deployment_name)
      | _ => None
      end
  end.

(** Whether an event creates a credential object. *)
Definition is_credential_call (ev : event serverE) : bool :=
  match ev with
  | Event ev _ =>
      match ev with
      | DefaultAzureCredential | AzureCliCredential => true
      | _ => false
      end
  end.

(** The credential an event tried to create, and whether it was created. *)
Inductive credential_kind : Type := DefaultCredential | CliCredential.

Definition credential_attempt (ev : event serverE) : option (credential_kind * bool) :=
  match ev with
  | Event ev x =>
      match ev in serverE T return T → option (credential_kind * bool) with
      | DefaultAzureCredential => λ o, Some (DefaultCredential, is_returned o)
      | AzureCliCredential => λ o, Some (CliCredential, is_returned o)
      | _ => λ _, None
      end x
  end.

End WithAzure.

End Server.


(** ** Further vocabulary: environment variables, sample services *)

Module ServerSpec.
Import Py IO Server.

(** The environment variable [name] has the value [v] (or is unset, for
    [None]) throughout the run. *)
Definition environ_is {credential client : Type}
    (w : env (@serverE credential client)) (name : string) (v : option string)
  : Prop :=
  ∀ hist, w _ hist (EnvironGet name) = v.

End ServerSpec.

Module MoreSamples.
Import Py IO Models Samples ArxivTool Middleware Frontend Server.

(** An arXiv service that answers with one paper, and one that is down. *)
Definition world_arxiv_up : env (@arxivE sample_result) :=
  λ X hist ev,
    match ev in arxivE T return T with
    | ArxivTool.LoggerInfo _ => tt
    | ArxivTool.LoggerError _ => tt
    | GetArxivService => Returned tt
    | ArxivTool.Uuid4 => "7d444840-9dc0-11d1-b245-5ffdce74fad2"
    | ArxivSearch _ _ _ =>
        Returned [ ("Direct recycling of cathodes", "http://arxiv.org/abs/1",
                    "We regenerate spent cathodes.") ]
    end.

Definition world_arxiv_down : env (@arxivE sample_result) :=
  λ X hist ev,
    match ev in arxivE T return T with
    | ArxivSearch _ _ _ => Raised network_error
    | ev' => world_arxiv_up _ hist ev'
    end.

(** Environment variables as an association list; every Azure object can be
    created. *)
Definition world_environ (vars : list (string * string)) : env (@serverE nat string) :=
  λ X hist ev,
    match ev in serverE T return T with
    | EnvironGet name => snd <$> find (λ kv, String.eqb (fst kv) name) vars
    | Server.LoggerInfo _ => tt
    | Server.LoggerWarning _ => tt
    | DefaultAzureCredential => Raised (Exn "CredentialUnavailableError" "no credential" None)
    | AzureCliCredential => Returned 7
    | AzureOpenAIChatClient _ endpoint _ => Returned ("client for " +:+ endpoint)
    end.

End MoreSamples.


(** ** [main.py]: [create_app] *)

Module Main.
Import Py IO Middleware.

(** A program over the events [E] as a program over the events [F]. *)
Fixpoint translate {E F : Type → Type} {A} (f : ∀ X, E X → F X) (p : io E A)
  : io F A :=
  match p with
  | Ret a => Ret a
  | Throw e => Throw e
  | Vis ev k => Vis (f _ ev) (λ x, translate f (k x))
  end.

Section WithPaths.
(** Paths: [static_dir] is [Path(__file__).parent.parent / "static"],
    [joinpath p s] is [p / s] and [path_str p] is [str(p)]; [repr_list l] is
    the text of the list [l] in an f-string. *)
Context {Path : Type}.
Context (static_dir : Path) (joinpath : Path → string → Path).
Context (path_str : Path → string).
Context (repr_list : list string → string).

(** The calls that leave [create_app]: the calls of the middleware setup,
    and its own.  [Getenv name dflt] is [os.getenv(name, dflt)];
    [Mount url directory] is [app.mount(url, StaticFiles(directory=...))],
    which can raise. *)
Inductive mainE : Type → Type :=
| Setup {X} (ev : setupE X) : mainE X
| NewFastAPI : mainE unit
| Getenv (name dflt : string) : mainE string
| LoggerInfo (msg : string) : mainE unit
| LoggerWarning (msg : string) : mainE unit
| IncludeRouter : mainE unit
| PathExists (p : Path) : mainE bool
| Mount (url directory : string) : mainE (outcome unit)
| AddRoute (path : string) : mainE unit.

Definition create_app : io mainE unit :=
  _ ← trigger NewFastAPI;
  cors_origins ← trigger (Getenv "CORS_ORIGINS" "*");
  let allowed_origins := split_char (ascii_of_nat 44) cors_origins in
  request_logging ← trigger (Getenv "ENABLE_REQUEST_LOGGING" "true");
  let enable_request_logging := String.eqb (lower request_logging) "true" in
  _ ← trigger (LoggerInfo ("Configuring middleware with origins: "
                           +:+ repr_list allowed_origins));
  _ ← trigger (LoggerInfo ("Request logging enabled: "
                           +:+ (if enable_request_logging then "True" else "False")));
  _ ← translate (@Setup)
        (setup_all_middleware repr_list (Some allowed_origins) enable_request_logging);
  _ ← trigger (LoggerInfo "Registering API routes");
  _ ← trigger IncludeRouter;
  found ← trigger (PathExists static_dir);
  _ ← (if found : bool then
         _ ← trigger (LoggerInfo ("Mounting static files from: " +:+ path_str static_dir));
         call (Mount "/assets" (path_str (joinpath static_dir "assets")))
       else
         trigger (LoggerWarning ("Static directory not found: " +:+ path_str static_dir)));
  _ ← trigger (AddRoute "/health");
  _ ← trigger (AddRoute "/{full_path:path}");
  mret ().

(** The middleware registered by an event. *)
Definition registered (ev : event mainE) : option middleware :=
  match ev with
  | Event ev _ =>
      match ev with
      | Setup (AddMiddleware m) => Some m
      | _ => None
      end
  end.

(** The environment variable an event read, with the value obtained. *)
Definition read_variable (ev : event mainE) : option (string * string) :=
  match ev with
  | Event ev x =>
      match ev in mainE T return T → option (string * string) with
      | Getenv name _ => λ value, Some (name, value)
      | _ => λ _, None
      end x
  end.

End WithPaths.

End Main.

(** ** [security_audit.py] *)

Module SecurityAudit.
Import Py IO.

(** What [subprocess.run(..., check=True)] does: it completes with the
    captured output, raises [CalledProcessError] with the captured error
    output for a non-zero exit status, or raises another exception. *)
Inductive run_outcome : Type :=
| Completed (stdout : string)
| CalledProcessError (stderr : string)
| OtherError (e : exn).

Section WithSystem.
(** [sys.executable], the two directories
    ([Path(__file__).parent] and [Path(__file__).parent.parent / "frontend"])
    and the class hierarchy of the running program. *)
Context {Path : Type}.
Context (sys_executable : string) (backend_path frontend_path : Path).
Context (isinstance : exn → string → bool).

Inductive auditE : Type → Type :=
| Print (text : string) : auditE unit
| SubprocessRun (command : list string) (cwd : Path) : auditE run_outcome.

Definition run_command (command : list string) (cwd : Path) : io auditE unit :=
  result ← trigger (SubprocessRun command cwd);
  match result with
  | Completed stdout =>
      trigger (Print ("[SUCCESS] " +:+ join " " command +:+ nl +:+ stdout))
  | CalledProcessError stderr =>
      trigger (Print ("[ERROR] " +:+ join " " command +:+ nl +:+ stderr))
  | OtherError e => Throw e
  end.

(** [try: body  except FileNotFoundError: handler] *)
Definition except_file_not_found {A} (body handler : io auditE A) : io auditE A :=
  try_except body
    (λ e, if isinstance e "FileNotFoundError" then handler else Throw e).

Definition audit_python : io auditE unit :=
  _ ← trigger (Print (nl +:+ "=== Auditing Python Backend Dependencies ==="));
  except_file_not_found
    (run_command [sys_executable; "-m"; "pip_audit"] backend_path)
    (trigger (Print "pip-audit not found. Please install with: pip install pip-audit")).

Definition audit_node : io auditE unit :=
  _ ← trigger (Print (nl +:+ "=== Auditing Node.js Frontend Dependencies ==="));
  except_file_not_found
    (run_command ["npm"; "audit"] frontend_path)
    (trigger (Print
       "npm not found. Please install Node.js and npm to audit frontend dependencies.")).

Definition main : io auditE unit :=
  _ ← trigger (Print "Starting security dependency audit...");
  _ ← audit_python;
  _ ← audit_node;
  trigger (Print (nl +:+ "Security audit completed.")).

(** The command an event ran, with its directory. *)
Definition ran (ev : event auditE) : option (list string * Path) :=
  match ev with
  | Event ev _ =>
      match ev with
      | SubprocessRun command cwd => Some (command, cwd)
      | Print _ => None
      end
  end.

(** The text an event printed. *)
Definition printed (ev : event auditE) : option string :=
  match ev with
  | Event ev _ =>
      match ev with
      | Print text => Some text
      | SubprocessRun _ _ => None
      end
  end.

(** The exception, other than [CalledProcessError], that a command raised. *)
Definition other_error (ev : event auditE) : option exn :=
  match ev with
  | Event ev x =>
      match ev in auditE T return T → option exn with
      | SubprocessRun _ _ =>
          λ r, match r with OtherError e => Some e | _ => None end
      | Print _ => λ _, None
      end x
  end.

End WithSystem.

End SecurityAudit.


Module MoreWorlds.
Import Py IO Models Samples DuckDuckGo Frontend SecurityAudit.

(** A provider item without a link. *)
Definition ddg_item_without_link : gmap string pyval :=
  {[ "title" := VStr "No link"; "body" := VStr "Nothing to follow." ]}.

(** The provider answers with the given items. *)
Definition world_ddg_items (items : list (gmap string pyval)) : env (@ddgE) :=
  λ X hist ev,
    match ev in ddgE T return T with
    | DdgsText _ _ => Returned items
    end.

(** A file system that holds the given paths.  Paths are strings, joined
    as [pathlib] joins them: an absolute right operand replaces the left
    one, an empty one leaves it as it is, and nothing is resolved
    ([".."] stays in the path). *)
Definition sample_joinpath (p s : string) : string :=
  if String.prefix "/" s then s
  else if String.eqb s "" then p
  else p +:+ "/" +:+ s.

Definition world_files (files : list string) : env (@fsE string) :=
  λ X hist ev,
    match ev in fsE T return T with
    | IsFile p => existsb (String.eqb p) files
    | Exists p => existsb (String.eqb p) files
    end.

(** The class of an exception is its own class only. *)
Definition sample_isinstance (e : exn) (cls : string) : bool :=
  String.eqb (exn_class e) cls.

(** [pip_audit] exits with a non-zero status, [npm audit] completes. *)
Definition world_audit : env (@auditE string) :=
  λ X hist ev,
    match ev in auditE T return T with
    | Print _ => tt
    | SubprocessRun command _ =>
        if bool_decide (head command = Some "npm")
        then Completed "found 0 vulnerabilities"
        else CalledProcessError "1 known vulnerability found"
    end.

(** No command may be run. *)
Definition denied : exn := Exn "PermissionError" "[Errno 13] Permission denied" None.

Definition world_audit_denied : env (@auditE string) :=
  λ X hist ev,
    match ev in auditE T return T with
    | Print _ => tt
    | SubprocessRun _ _ => OtherError denied
    end.

End MoreWorlds.

(** * Properties *)

(** ** Strings and lists *)

Section PyFacts.
Import Py.

Lemma append_assoc (a b c : string) : (a +:+ b) +:+ c = a +:+ b +:+ c.
Proof.
  induction a as [|x a IH]; [done|].
  change (String x ((a +:+ b) +:+ c) = String x (a +:+ b +:+ c)). by rewrite IH.
Qed.

Lemma append_empty_r (s : string) : s +:+ "" = s.
Proof.
  induction s as [|x s IH]; [done|].
  change (String x (s +:+ "") = String x s). by rewrite IH.
Qed.

Lemma str_take_length n s : String.length (str_take n s) = min n (String.length s).
Proof.
  revert s. induction n as [|n IH]; intros [|c s]; try done.
  change (S (String.length (str_take n s)) = S (min n (String.length s))).
  by rewrite IH.
Qed.

Lemma str_take_all n s : String.length s ≤ n → str_take n s = s.
Proof.
  revert s. induction n as [|n IH]; intros [|c s] Hlen; simpl in Hlen; try done; try lia.
  change (String c (str_take n s) = String c s). rewrite IH; [done | lia].
Qed.

Lemma substring_of_refl s : substring_of s s.
Proof. exists "", "". by rewrite append_empty_r. Qed.

Lemma substring_of_app_l t s pre : substring_of t s → substring_of t (pre +:+ s).
Proof. intros (a & b & ->). exists (pre +:+ a), b. by rewrite append_assoc. Qed.

Lemma substring_of_app_r t s post : substring_of t s → substring_of t (s +:+ post).
Proof. intros (a & b & ->). exists a, (b +:+ post). by rewrite !append_assoc. Qed.

Lemma substring_of_trans a b c :
  substring_of a b → substring_of b c → substring_of a c.
Proof. intros Hab (p & q & ->). by apply substring_of_app_l, substring_of_app_r. Qed.

Lemma join_nil sep : join sep [] = "".
Proof. done. Qed.

Lemma join_singleton sep x : join sep [x] = x.
Proof. done. Qed.

Lemma join_cons sep x y l : join sep (x :: y :: l) = x +:+ sep +:+ join sep (y :: l).
Proof. done. Qed.

Lemma substring_of_join sep part parts :
  part ∈ parts → substring_of part (join sep parts).
Proof.
  induction parts as [|x [|y l] IH]; intros Hin.
  - by apply elem_of_nil in Hin.
  - apply list_elem_of_singleton in Hin as ->. apply substring_of_refl.
  - rewrite join_cons. apply elem_of_cons in Hin as [-> | Hin].
    + apply substring_of_app_r, substring_of_refl.
    + by apply substring_of_app_l, substring_of_app_l, IH.
Qed.

End PyFacts.

(** ** Runs *)

Section RunFacts.
Import Py IO.
Context {E : Type → Type}.

(** The trace of a run is made of the answers of the environment. *)
Lemma run_answered_by {A} (w : env E) (p : io E A) : ∀ hist o t,
  run w hist p = (o, t) → answered_by w hist t.
Proof.
  induction p as [a|e|X ev k IH]; intros hist o t; simpl.
  - by intros [= _ <-].
  - by intros [= _ <-].
  - destruct (run w _ (k _)) as [o' t'] eqn:Hrun. intros [= _ <-].
    split; [done|]. by eapply IH.
Qed.

End RunFacts.

(** Case analysis on every answer of the environment [w] in the goal. *)
Ltac answer_all w :=
  repeat (match goal with
          | |- context [w ?X ?h ?ev] => destruct (w X h ev)
          end; simpl);
  repeat match goal with u : () |- _ => destruct u end.

(** ** [synthesize_answer] *)

Section SynthesizeFacts.
Import Py IO Models Tools ToolsSpec.
Context {response SearchResult : Type}.
Local Abbreviation E := (@toolsE response SearchResult).
Local Abbreviation loop_body := (@synthesize_loop_body response SearchResult).
Implicit Types (w : env E) (hist t : list (event E)).
Implicit Types (result : gmap string pyval) (rs shown : list (gmap string pyval)).

(** The loop performs no event: it ends or it raises. *)
Lemma synthesize_loop_pure shown : ∀ i acc,
  (∃ acc', for_in (E:=E) (enumerate i shown) loop_body acc = Ret acc')
  ∨ (∃ e, for_in (E:=E) (enumerate i shown) loop_body acc = Throw e).
Proof.
  induction shown as [|r l IH]; intros i [cp ss]; simpl.
  - left. eauto.
  - unfold dict_get. destruct (default (VStr "") (r !! "snippet")); simpl; eauto.
Qed.

Lemma synthesize_loop_returns shown : ∀ i cp ss cp' ss',
  for_in (E:=E) (enumerate i shown) loop_body (cp, ss) = Ret (cp', ss') →
  Forall has_text_snippet shown
  ∧ cp' = cp ++ imap (λ k, context_entry (i + k)) shown
  ∧ ss' = ss ++ imap (λ k, source_entry (i + k)) shown.
Proof.
  induction shown as [|r l IH]; intros i cp ss cp' ss'; simpl.
  - intros [= <- <-]. by rewrite !app_nil_r.
  - destruct (dict_get r "snippet" (VStr "")) as [| | |s] eqn:Hs; simpl; try done.
    unfold has_text_snippet, source_entry, context_entry, snippet_text, snippet_of.
    intros H. apply IH in H as (Hall & -> & ->).
    split; [constructor; [by exists s|done]|].
    rewrite <-!app_assoc. simpl. rewrite Nat.add_0_r, Hs.
    split; do 2 f_equal; apply imap_ext; intros; simpl; by rewrite Nat.add_succ_r.
Qed.

(** With string snippets only, the loop ends. *)
Lemma synthesize_loop_total shown i cp ss :
  Forall has_text_snippet shown →
  for_in (E:=E) (enumerate i shown) loop_body (cp, ss)
  = Ret (cp ++ imap (λ k, context_entry (i + k)) shown,
         ss ++ imap (λ k, source_entry (i + k)) shown).
Proof.
  intros Hall.
  destruct (synthesize_loop_pure shown i (cp, ss)) as [[[cp' ss'] H] | [e H]].
  - rewrite H. by apply synthesize_loop_returns in H as (_ & -> & ->).
  - exfalso. revert i cp ss e H.
    induction Hall as [|r l [s Hs] _ IH]; intros i cp ss e; simpl; [done|].
    unfold snippet_of in Hs. rewrite Hs. simpl. apply IH.
Qed.

(** Every run of [synthesize_answer] on a non-empty list: the answer with
    its five events, or the error dict after one of four failures. *)
Lemma synthesize_answer_run w hist query r rs o t :
  run w hist (synthesize_answer query (Some (r :: rs))) = (o, t) →
  let shown := presented (r :: rs) in
  let started := Event (E:=E) (LoggerInfo ("Synthesizing answer for: " +:+ query)) () in
  let service := Event (E:=E) GetOpenAIService (Returned ()) in
  let asked := ChatCompletion (SearchResult:=SearchResult)
                 (synthesis_messages query shown) (5 # 10) in
  let failed e :=
    Event (E:=E) (LoggerError ("Failed to synthesize answer: " +:+ exn_str e)) () in
  (Forall has_text_snippet shown
   ∧ ∃ resp text,
       o = Returned (answer_of query text shown)
       ∧ t = [ started; service;
               Event asked (Returned resp);
               Event (ExtractText resp) (Returned text);
               Event (LoggerInfo ("Answer synthesized with "
                                  +:+ pretty (length shown) +:+ " sources")) () ])
  ∨ (∃ e,
       o = Returned (error_answer query e)
       ∧ (t = [ started; Event GetOpenAIService (Raised e); failed e ]
          ∨ (t = [ started; service; failed e ] ∧ ¬ Forall has_text_snippet shown)
          ∨ t = [ started; service; Event asked (Raised e); failed e ]
          ∨ ∃ resp,
              t = [ started; service; Event asked (Returned resp);
                    Event (ExtractText resp) (Raised e); failed e ])).
Proof.
  unfold synthesize_answer. cbv beta iota delta [from_option id].
  change (take 10 (r :: rs)) with (presented (r :: rs)).
  generalize (presented (r :: rs)) as shown. intros shown.
  destruct (synthesize_loop_pure shown 1 ([], [])) as [[[cp ss] Hloop] | [e Hloop]].
  - pose proof Hloop as Hspec.
    apply synthesize_loop_returns in Hspec as (Hall & -> & ->).
    rewrite Hloop. simpl. answer_all w.
    all: rewrite ?length_imap; intros [= <- <-].
    all: try (right; eexists; split; [reflexivity|]; eauto 10; fail).
    left. split; [done|]. by do 2 eexists.
  - rewrite Hloop. simpl. answer_all w.
    all: intros [= <- <-].
    all: right; eexists; split; [reflexivity|]; eauto 10.
    right; left. split; [done|]. intros Hall.
    by rewrite (synthesize_loop_total shown 1 [] [] Hall) in Hloop.
Qed.

(** A returned dict without ["error"] is the answer dict. *)
Lemma synthesize_answer_success w hist query r rs d t :
  run w hist (synthesize_answer query (Some (r :: rs))) = (Returned d, t) →
  ans_error d = None →
  let shown := presented (r :: rs) in
  Forall has_text_snippet shown
  ∧ ∃ resp text,
      d = answer_of query text shown
      ∧ t = [ Event (LoggerInfo ("Synthesizing answer for: " +:+ query)) ();
              Event GetOpenAIService (Returned ());
              Event (ChatCompletion (synthesis_messages query shown) (5 # 10))
                    (Returned resp);
              Event (ExtractText resp) (Returned text);
              Event (LoggerInfo ("Answer synthesized with "
                                 +:+ pretty (length shown) +:+ " sources")) () ].
Proof.
  intros Hrun Herr.
  apply synthesize_answer_run in Hrun
    as [(Hall & resp & text & [= ->] & ->) | (e & [= ->] & _)]; [|done].
  split; [done|]. by exists resp, text.
Qed.

Lemma source_indices shown :
  src_index <$> imap (λ k, source_entry (1 + k)) shown = seq 1 (length shown).
Proof.
  rewrite fmap_imap.
  rewrite (imap_ext _ (λ j _, id (1 + j))) by done.
  by rewrite imap_seq, list_fmap_id.
Qed.

(** C1. When [synthesize_answer] is given a non-empty list and returns an
    answer (a dict without ["error"]), its [sources] has one entry for
    each of the first 10 search results, in their order: there are
    [min 10 (len search_results)] entries, their indices are
    [1, 2, ..., min 10 (len search_results)], and the entry at position
    [i] (from 0) has index [i + 1] and the title and url of
    [search_results[i]]. *)
Theorem C1_sources_follow_presented_order w hist query rs d t :
  rs ≠ [] →
  run w hist (synthesize_answer query (Some rs)) = (Returned d, t) →
  ans_error d = None →
  length (ans_sources d) = min 10 (length rs)
  ∧ src_index <$> ans_sources d = seq 1 (min 10 (length rs))
  ∧ ∀ i result,
      i < 10 → rs !! i = Some result →
      ∃ entry,
        ans_sources d !! i = Some entry
        ∧ src_index entry = S i
        ∧ src_title entry = dict_get result "title" (VStr "Unknown")
        ∧ src_url entry = dict_get result "url" (VStr "").
Proof.
  destruct rs as [|r rs]; [done|]. intros _ Hrun Herr.
  apply synthesize_answer_success in Hrun as (_ & resp & text & -> & _); [|done].
  unfold answer_of, presented, max_sources. cbn [ans_sources].
  rewrite length_imap, source_indices, length_take.
  split_and!; [done..|].
  intros i result Hi Hlook. exists (source_entry (S i) result).
  by rewrite list_lookup_imap, lookup_take_lt, Hlook.
Qed.

(** When every call to the model is answered and the presented snippets are
    strings, [synthesize_answer] returns an answer. *)
Lemma synthesize_answer_answers w hist query r rs :
  (∀ h, is_returned (w _ h GetOpenAIService) = true) →
  (∀ h messages temperature,
     is_returned (w _ h (ChatCompletion messages temperature)) = true) →
  (∀ h resp, is_returned (w _ h (ExtractText resp)) = true) →
  Forall has_text_snippet (presented (r :: rs)) →
  ∃ text t,
    run w hist (synthesize_answer query (Some (r :: rs)))
    = (Returned (answer_of query text (presented (r :: rs))), t).
Proof.
  intros Hservice Hchat Hextract Hall.
  destruct (run w hist (synthesize_answer query (Some (r :: rs)))) as [o t] eqn:Hrun.
  pose proof (run_answered_by _ _ _ _ _ Hrun) as Hw.
  apply synthesize_answer_run in Hrun
    as [(_ & resp & text & -> & _)
       | (e & _ & [-> | [[_ Hbad] | [-> | [resp ->]]]])].
  - by exists text, t.
  - destruct Hw as (_ & Hw & _).
    apply (f_equal is_returned) in Hw. by rewrite Hservice in Hw.
  - done.
  - destruct Hw as (_ & _ & Hw & _).
    apply (f_equal is_returned) in Hw. by rewrite Hchat in Hw.
  - destruct Hw as (_ & _ & _ & Hw & _).
    apply (f_equal is_returned) in Hw. by rewrite Hextract in Hw.
Qed.

End SynthesizeFacts.

(** Case analysis on the membership [H : x ∈ [a; b; ...]] in an explicit
    list. *)
Ltac member_cases H :=
  repeat (apply elem_of_cons in H as [H | H]; [try discriminate H|]);
  try (by apply elem_of_nil in H).

Section SynthesizeClaims.
Import Py IO Models Tools ToolsSpec.
Context {response SearchResult : Type}.
Local Abbreviation E := (@toolsE response SearchResult).
Implicit Types (w : env E) (hist t : list (event E)).
Implicit Types (result : gmap string pyval) (rs shown : list (gmap string pyval)).

(** Without results the run is the opening log line and the fixed dict. *)
Lemma no_results_run w hist query search_results :
  default [] search_results = [] →
  run w hist (synthesize_answer query search_results)
  = (Returned (no_results_answer query),
     [ Event (LoggerInfo ("Synthesizing answer for: " +:+ query)) () ]).
Proof.
  intros Hnone. unfold synthesize_answer. rewrite Hnone. simpl.
  by destruct (w _ hist (LoggerInfo ("Synthesizing answer for: " +:+ query))).
Qed.

(** C3. Given no list ([None]) or an empty list, [synthesize_answer]
    returns (it does not raise) the fixed dict whose content is
    "I couldn't find relevant information to answer your question." and
    whose sources are empty, whatever the environment; the only event of
    the run is the opening log line, so no call to the text-generation
    capability is made.  The dict is an error dict all the same: it
    carries ["error": "No search results provided"], and neither
    ["sources_count"] nor ["confidence"], which only an answer has. *)
Theorem C3_no_results_short_circuit w hist query :
  let t := [ Event (E:=E) (LoggerInfo ("Synthesizing answer for: " +:+ query)) () ] in
  run w hist (synthesize_answer query None) = (Returned (no_results_answer query), t)
  ∧ run w hist (synthesize_answer query (Some []))
    = (Returned (no_results_answer query), t)
  ∧ ans_content (no_results_answer query)
    = "I couldn't find relevant information to answer your question."
  ∧ ans_sources (no_results_answer query) = []
  ∧ Forall (λ ev, is_capability_call ev = false) t
  ∧ ans_error (no_results_answer query) = Some "No search results provided"
  ∧ ans_sources_count (no_results_answer query) = None
  ∧ ans_confidence (no_results_answer query) = None.
Proof.
  split_and!; try done.
  - by apply no_results_run.
  - by apply no_results_run.
  - by repeat constructor.
Qed.

(** C9. When [synthesize_answer] is given a non-empty list and returns an
    answer (a dict without ["error"]), the confidence of the answer is the
    constant [0.85], whatever the question, the results and the generated
    text, and [0 <= 0.85 <= 1]. *)
Theorem C9_confidence_is_constant w hist query rs d t :
  rs ≠ [] →
  run w hist (synthesize_answer query (Some rs)) = (Returned d, t) →
  ans_error d = None →
  ans_confidence d = Some (85 # 100) ∧ (0 <= 85 # 100)%Q ∧ (85 # 100 <= 1)%Q.
Proof.
  destruct rs as [|r rs]; [done|]. intros _ Hrun Herr.
  apply synthesize_answer_success in Hrun as (_ & resp & text & -> & _); [|done].
  split; [done|]. by split; compute.
Qed.

Lemma snippet_in_prompt query shown i result s :
  shown !! i = Some result →
  snippet_of result = VStr s →
  substring_of s
    (synthesis_prompt query
       (join (nl +:+ nl) (imap (λ k, context_entry (1 + k)) shown))).
Proof.
  intros Hlook Hs.
  apply substring_of_trans with (context_entry (1 + i) result).
  { unfold context_entry. rewrite Hs. cbn [py_str].
    do 5 apply substring_of_app_l. apply substring_of_refl. }
  apply substring_of_trans
    with (join (nl +:+ nl) (imap (λ k, context_entry (1 + k)) shown)).
  { apply substring_of_join.
    apply (list_elem_of_lookup_2 _ i). by rewrite list_lookup_imap, Hlook. }
  unfold synthesis_prompt.
  do 11 apply substring_of_app_l. apply substring_of_app_r, substring_of_refl.
Qed.

(** C10. When [synthesize_answer] is given a non-empty list and returns
    an answer (a dict without ["error"]), exactly one request was sent to
    the model, a single user message, and for each of the first 10 search
    results the snippet is a string [s], the source entry at its position
    carries [s[:200]], which has at most 200 characters, and the whole of
    [s] occurs in the message sent to the model. *)
Theorem C10_snippet_truncated_in_sources_full_in_context w hist query rs d t :
  rs ≠ [] →
  run w hist (synthesize_answer query (Some rs)) = (Returned d, t) →
  ans_error d = None →
  ∃ prompt,
    omap sent_messages t = [ [ {| role := "user"; content := prompt |} ] ]
    ∧ ∀ i result,
        i < 10 → rs !! i = Some result →
        ∃ s entry,
          snippet_of result = VStr s
          ∧ ans_sources d !! i = Some entry
          ∧ src_snippet entry = VStr (str_take 200 s)
          ∧ String.length (str_take 200 s) ≤ 200
          ∧ substring_of s prompt.
Proof.
  destruct rs as [|r rs]; [done|]. intros _ Hrun Herr.
  apply synthesize_answer_success in Hrun as (Hall & resp & text & -> & ->); [|done].
  eexists. split; [reflexivity|].
  intros i result Hi Hlook.
  assert (presented (r :: rs) !! i = Some result) as Hshown
    by (by unfold presented, max_sources; rewrite lookup_take_lt).
  destruct (Forall_lookup_1 _ _ _ _ Hall Hshown) as [s Hs].
  exists s, (source_entry (S i) result). split_and!.
  - done.
  - cbn [answer_of ans_sources]. by rewrite list_lookup_imap, Hshown.
  - unfold source_entry, snippet_text. by rewrite Hs.
  - rewrite str_take_length. lia.
  - by eapply snippet_in_prompt.
Qed.

(** [synthesize_answer] never raises. *)
Lemma synthesize_answer_returns w hist query search_results :
  ∃ d t, run w hist (synthesize_answer query search_results) = (Returned d, t).
Proof.
  destruct search_results as [[|r rs]|].
  - do 2 eexists. by apply no_results_run.
  - destruct (run w hist (synthesize_answer query (Some (r :: rs)))) as [o t] eqn:Hrun.
    apply synthesize_answer_run in Hrun
      as [(_ & resp & text & -> & _) | (e & -> & _)]; by do 2 eexists.
  - do 2 eexists. by apply no_results_run.
Qed.

(** C4, as the code has it.  When a call to the text-generation capability
    (getting the service, [chat_completion] or [extract_text]) raises [e]
    while [synthesize_answer] works on a non-empty list, the function does
    not raise: it writes "Failed to synthesize answer: " followed by
    [str(e)] to the error log and returns the dict whose ["error"] is
    [str(e)], whose content is the fixed text
    "An error occurred while synthesizing the answer." and whose sources
    are empty. *)
Theorem C4_capability_failure_returns_error_dict w hist query rs o t e :
  rs ≠ [] →
  run w hist (synthesize_answer query (Some rs)) = (o, t) →
  Some e ∈ capability_failure <$> t →
  o = Returned (error_answer query e)
  ∧ ans_error (error_answer query e) = Some (exn_str e)
  ∧ ans_content (error_answer query e)
    = "An error occurred while synthesizing the answer."
  ∧ ans_sources (error_answer query e) = []
  ∧ Some ("Failed to synthesize answer: " +:+ exn_str e) ∈ logged_error <$> t.
Proof.
  destruct rs as [|r rs]; [done|]. intros _ Hrun Hfail.
  apply synthesize_answer_run in Hrun
    as [(_ & resp & text & -> & ->)
       | (e' & -> & [-> | [[-> _] | [-> | [resp ->]]]])];
    cbn in Hfail; member_cases Hfail.
  all: injection Hfail as <-; split_and!; try done.
  all: cbn; repeat first [apply list_elem_of_here | apply list_elem_of_further].
Qed.

End SynthesizeClaims.

(** ** [create_research_plan] *)

Section PlanClaims.
Import Py IO Models Tools ToolsSpec.
Context {response SearchResult : Type}.
Local Abbreviation E := (@toolsE response SearchResult).
Implicit Types (w : env E) (hist t : list (event E)).

Local Arguments parse_keywords : simpl never.
Local Arguments build_search_steps : simpl never.

(** C2. When [create_research_plan] returns a plan (a dict without
    ["error"]), the keywords of the plan are the non-empty stripped lines
    of the first text the model returned, and the search steps are built
    from them: the first step has the first 3 keywords and the selected
    sources (["google", "arxiv"] when none are given); a second step
    exists exactly when there are more than 3 keywords, and it has the
    remaining keywords and the same sources; there is no third step.  In
    particular 2 keywords give exactly one step. *)
Theorem C2_search_steps_from_keywords w hist query sources d t :
  run w hist (create_research_plan query sources) = (Returned d, t) →
  plan_error d = None →
  let selected := default ["google"; "arxiv"] sources in
  let keywords := plan_keywords d in
  (∃ text, head (omap extracted_text t) = Some text
           ∧ keywords = parse_keywords text)
  ∧ (∃ first, plan_search_steps d !! 0 = Some first
              ∧ step_keywords first = take 3 keywords
              ∧ step_sources first = selected)
  ∧ (is_Some (plan_search_steps d !! 1) ↔ 3 < length keywords)
  ∧ (∀ second, plan_search_steps d !! 1 = Some second →
               step_keywords second = drop 3 keywords
               ∧ step_sources second = selected)
  ∧ length (plan_search_steps d) ≤ 2
  ∧ (length keywords = 2 → length (plan_search_steps d) = 1).
Proof.
  unfold create_research_plan. simpl. answer_all w.
  all: intros [= <- <-]; try done.
  intros _. cbn. split; [by eexists|].
  unfold build_search_steps.
  destruct (3 <? length _) eqn:Hlen;
    [apply Nat.ltb_lt in Hlen | apply Nat.ltb_ge in Hlen]; simpl.
  - split_and!; [by eexists | done | by intros ? [= <-] | lia | lia].
  - split_and!; [by eexists | | done | lia | done].
    split; [by intros [? [=]] | lia].
Qed.

(** [create_research_plan] never raises. *)
Lemma create_research_plan_returns w hist query sources :
  ∃ d t, run w hist (create_research_plan query sources) = (Returned d, t).
Proof.
  unfold create_research_plan. simpl. answer_all w. all: by do 2 eexists.
Qed.

(** C5, as the code has it.  When a call to the text-generation capability
    raises [e] during [create_research_plan] (getting the service, either
    [chat_completion], either [extract_text]), the function does not
    raise: it writes "Failed to create research plan: " followed by
    [str(e)] to the error log and returns the dict whose ["error"] is
    [str(e)], with no strategy, no keywords and no search steps, also when
    the keywords had already been obtained: never a partial plan. *)
Theorem C5_capability_failure_returns_error_plan w hist query sources o t e :
  run w hist (create_research_plan query sources) = (o, t) →
  Some e ∈ capability_failure <$> t →
  let selected := default ["google"; "arxiv"] sources in
  o = Returned (error_plan query selected e)
  ∧ plan_error (error_plan query selected e) = Some (exn_str e)
  ∧ plan_strategy (error_plan query selected e) = None
  ∧ plan_keywords (error_plan query selected e) = []
  ∧ plan_search_steps (error_plan query selected e) = []
  ∧ Some ("Failed to create research plan: " +:+ exn_str e) ∈ logged_error <$> t.
Proof.
  unfold create_research_plan. simpl. answer_all w.
  all: intros [= <- <-] Hfail; cbn in Hfail; member_cases Hfail.
  all: injection Hfail as <-; split_and!; try done.
  all: cbn; repeat first [apply list_elem_of_here | apply list_elem_of_further].
Qed.

End PlanClaims.

(** ** The search backends: [DuckDuckGoSearchService] and [search_google] *)

Section BackendClaims.
Import Py IO Models Tools ToolsSpec DuckDuckGo.
Context {UUID SearchResult response : Type}.
Context (SearchResult_init :
           UUID → SearchSource → pyval → pyval → pyval → outcome SearchResult).
Context (sr_title sr_url_str sr_snippet sr_source_value : SearchResult → string).
Context (sr_relevance_score : SearchResult → Q).
Local Abbreviation D := (@ddgE).
Local Abbreviation E := (@toolsE response SearchResult).
Local Abbreviation search := (search SearchResult_init).
Local Abbreviation search_with_keywords := (search_with_keywords SearchResult_init).
Local Abbreviation search_google :=
  (search_google (response:=response)
     sr_title sr_url_str sr_snippet sr_source_value sr_relevance_score).

(** Building the results performs no event: it ends or it raises. *)
Lemma append_results_pure (query_id : UUID) items : ∀ acc,
  (∃ acc', for_in (E:=D) items (append_result SearchResult_init query_id) acc = Ret acc')
  ∨ (∃ e, for_in (E:=D) items (append_result SearchResult_init query_id) acc = Throw e).
Proof.
  induction items as [|item items IH]; intros acc; simpl; [by eauto|].
  assert ((∃ r, append_result SearchResult_init query_id item acc = Ret (acc ++ [r]))
          ∨ (∃ e, append_result SearchResult_init query_id item acc = Throw e))
    as [[r ->] | [e ->]]; simpl; eauto.
  unfold append_result. destruct (SearchResult_init _ _ _ _ _); simpl; eauto.
Qed.

(** Whatever [search] raises is a wrapped cause. *)
Lemma search_raises_wrapped (w : env D) hist query query_id num_results e' t :
  run w hist (search query query_id num_results) = (Raised e', t) →
  ∃ e, e' = wrapped e.
Proof.
  unfold DuckDuckGo.search, run_sync. simpl.
  destruct (w _ hist (DdgsText query (Z.min num_results 10))) as [items|e]; simpl.
  - destruct (append_results_pure query_id items []) as [[acc ->] | [e ->]]; simpl.
    + done.
    + intros [= <- _]. by exists e.
  - intros [= <- _]. by exists e.
Qed.

(** A run of [search] performs one event, the provider call with the query
    and [min(num_results, 10)]. *)
Lemma search_calls_provider_once (w : env D) hist query query_id num_results o t :
  run w hist (search query query_id num_results) = (o, t) →
  ∃ answer, t = [ Event (DdgsText query (Z.min num_results 10)) answer ].
Proof.
  unfold DuckDuckGo.search, run_sync. simpl.
  destruct (w _ hist (DdgsText query (Z.min num_results 10))) as [items|e]; simpl.
  - destruct (append_results_pure query_id items []) as [[acc ->] | [e ->]]; simpl;
      intros [= _ <-]; by eexists.
  - intros [= _ <-]. by eexists.
Qed.

(** C8. [search_with_keywords(query_id, keywords, max_results)] is the
    call [search(" ".join(keywords), query_id, max_results)]: the same
    program, hence in every environment the same events and the same
    result or exception.  Its one event is the provider call with the query
    [" ".join(keywords)], which is the keywords in order with one space
    between neighbours, and with [min(max_results, 10)]. *)
Theorem C8_search_with_keywords_joins_with_spaces
    (query_id : UUID) (keywords : list string) (max_results : Z) :
  search_with_keywords query_id keywords max_results
  = search (join " " keywords) query_id max_results
  ∧ (∀ (w : env D) hist,
       run w hist (search_with_keywords query_id keywords max_results)
       = run w hist (search (join " " keywords) query_id max_results))
  ∧ (∀ (w : env D) hist o t,
       run w hist (search_with_keywords query_id keywords max_results) = (o, t) →
       ∃ answer,
         t = [ Event (DdgsText (join " " keywords) (Z.min max_results 10)) answer ])
  ∧ join " " [] = ""
  ∧ (∀ k, join " " [k] = k)
  ∧ (∀ k k' rest, join " " (k :: k' :: rest) = k +:+ " " +:+ join " " (k' :: rest)).
Proof.
  split_and!; try done.
  intros w hist o t Hrun. by eapply search_calls_provider_once.
Qed.

(** C6, as the code has it.  When the provider call of
    [DuckDuckGoSearchService.search] raises [e], [search] raises an
    [Exception] whose message is "DuckDuckGo Search error: " followed by
    [str(e)] and whose cause is [e]; it returns no list.  When the service
    behind [search_google] raises [e], [search_google] does not raise: it
    writes "Google search failed: " followed by [str(e)] to the error log
    and returns the dict whose source is "google", whose ["error"] is
    [str(e)], whose count is 0 and whose results are the empty list. *)
Theorem C6_provider_failure_raised_by_service_recorded_by_tool :
  (∀ (w : env D) hist query (query_id : UUID) num_results e,
     w _ hist (DdgsText query (Z.min num_results 10)) = Raised e →
     run w hist (search query query_id num_results)
     = (Raised (wrapped e), [ Event (DdgsText query (Z.min num_results 10)) (Raised e) ])
     ∧ exn_cause (wrapped e) = Some e
     ∧ exn_str (wrapped e) = "DuckDuckGo Search error: " +:+ exn_str e)
  ∧ (∀ (w : env E) hist query max_results o t e,
       run w hist (search_google query max_results) = (o, t) →
       Some e ∈ provider_failure <$> t →
       o = Returned (error_reply query e)
       ∧ sr_source (error_reply query e) = "google"
       ∧ sr_error (error_reply query e) = Some (exn_str e)
       ∧ sr_results_count (error_reply query e) = 0
       ∧ sr_results (error_reply query e) = []
       ∧ Some ("Google search failed: " +:+ exn_str e) ∈ logged_error <$> t).
Proof.
  split.
  - intros w hist query query_id num_results e Hdown.
    unfold DuckDuckGo.search, run_sync. simpl. by rewrite Hdown.
  - intros w hist query max_results o t e.
    unfold Tools.search_google. simpl. answer_all w.
    all: intros [= <- <-] Hfail; cbn in Hfail; member_cases Hfail.
    all: injection Hfail as <-; split_and!; try done.
    all: cbn; repeat first [apply list_elem_of_here | apply list_elem_of_further].
Qed.

End BackendClaims.

(** ** [ResearchRequest] *)

Section RequestClaims.
Import Py IO Models Routes.
Context (SearchSource_of_value : pyval → option SearchSource).
Context {E : Type → Type} {R : Type}.
Context (submit_research : ResearchRequest → io E R).
Local Abbreviation validate := (validate SearchSource_of_value).
Local Abbreviation post_research :=
  (post_research SearchSource_of_value submit_research).

(** A validated request satisfies the bounds of the model. *)
Lemma validate_bounds body request :
  validate body = inr request →
  1 ≤ String.length (content request) ≤ 2000
  ∧ 1 ≤ length (search_sources request).
Proof.
  unfold Routes.validate.
  destruct (validate_content _) as [e1|c] eqn:Hc;
    destruct (validate_search_sources _ _) as [e2|srcs] eqn:Hs; try done.
  intros [= <-]. cbn [content search_sources].
  unfold validate_content, content_min_length, content_max_length in Hc.
  unfold validate_search_sources, search_sources_min_length in Hs.
  split.
  - destruct (body_content body) as [[| | |s]|]; try done.
    destruct (Nat.ltb_spec (String.length s) 1); [done|].
    destruct (Nat.ltb_spec 2000 (String.length s)); [done|].
    injection Hc as <-. lia.
  - destruct (body_search_sources body) as [items|]; [|done].
    destruct (validate_items _ 0 items) as [|srcs']; [done|].
    destruct (Nat.ltb_spec (length srcs') 1); [done|].
    injection Hs as <-. lia.
Qed.

(** C7. A body whose question is the empty string, or a string of more
    than 2000 characters, or whose list of search sources is empty, does
    not validate as a [ResearchRequest]: the endpoint answers with the
    validation errors, performs no event, and [submit_research], in which
    the workflow and its planning stage run, is not entered. *)
Theorem C7_invalid_request_rejected_before_handler body :
  (body_content body = Some (VStr "")
   ∨ (∃ s, body_content body = Some (VStr s) ∧ 2000 < String.length s)
   ∨ body_search_sources body = Some []) →
  ∃ errors,
    errors ≠ []
    ∧ validate body = inl errors
    ∧ post_research body = Ret (Unprocessable errors)
    ∧ ∀ (w : env E) hist,
        run w hist (post_research body) = (Returned (Unprocessable errors), []).
Proof.
  intros Hbad.
  assert (∃ errors, errors ≠ [] ∧ validate body = inl errors) as (errors & Hne & Hval).
  { unfold Routes.validate.
    destruct Hbad as [-> | [(s & -> & Hlong) | ->]].
    - simpl. destruct (validate_search_sources _ _); (eexists; split; [|reflexivity]; done).
    - unfold validate_content, content_min_length, content_max_length.
      destruct (Nat.ltb_spec (String.length s) 1); [lia|].
      destruct (Nat.ltb_spec 2000 (String.length s)); [|lia].
      destruct (validate_search_sources _ _); (eexists; split; [|reflexivity]; done).
    - simpl. destruct (validate_content _); (eexists; split; [|reflexivity]; done). }
  exists errors. unfold Routes.post_research. rewrite Hval. by split_and!.
Qed.

End RequestClaims.

(** ** The properties on sample runs *)

Section SampleRuns.
Import Py IO Models Tools ToolsSpec DuckDuckGo Samples.

Local Abbreviation question := "advances in battery recycling".

(** Two candidates, all calls answered: the sources are numbered 1, 2. *)
Lemma C1_sample_run :
  ∃ d t,
    run (world_answering keywords_reply) []
        (synthesize_answer question (Some [result_a; result_b])) = (Returned d, t)
    ∧ src_index <$> ans_sources d = [1; 2].
Proof.
  do 2 eexists. split; [reflexivity|].
  refine (proj1 (proj2 (C1_sources_follow_presented_order
                          (world_answering keywords_reply) [] question
                          [result_a; result_b] _ _ _ _ _))).
  - discriminate.
  - reflexivity.
  - reflexivity.
Defined.

(** C3 on a sample.  Asked with an empty list, the tool returns a dict with
    an ["error"]: by the test that tells an answer from an error dict, the
    short-circuit is reported as an error, although nothing was raised and
    no call was made. *)
Lemma C3_no_results_reply_carries_error :
  ∃ d t,
    run (world_answering keywords_reply) [] (synthesize_answer question (Some []))
    = (Returned d, t)
    ∧ ans_error d = Some "No search results provided"
    ∧ ans_error d ≠ None
    ∧ ans_sources_count d = None
    ∧ ans_confidence d = None
    ∧ Forall (λ ev, is_capability_call ev = false) t.
Proof.
  do 2 eexists. split; [reflexivity|]. split_and!; try done.
  by repeat constructor.
Qed.

(** A reply of two keywords gives one search step. *)
Lemma C2_sample_run :
  ∃ d t,
    run (world_answering keywords_reply) [] (create_research_plan question None)
    = (Returned d, t)
    ∧ plan_keywords d = ["battery recycling"; "lithium recovery"]
    ∧ length (plan_search_steps d) = 1.
Proof.
  do 2 eexists. split; [reflexivity|]. split; [reflexivity|].
  refine (proj2 (proj2 (proj2 (proj2 (proj2
            (C2_search_steps_from_keywords
               (world_answering keywords_reply) [] question None _ _ _ _))))) _).
  - reflexivity.
  - reflexivity.
  - reflexivity.
Defined.

(** A reply of five keywords gives two search steps, 3 + 2. *)
Example five_keywords_two_steps :
  ∃ d t,
    run (world_answering many_keywords_reply) []
        (create_research_plan question (Some ["arxiv"])) = (Returned d, t)
    ∧ plan_search_steps d
      = [ {| step_description := "Search for main topic: " +:+ question;
             step_keywords := ["k1"; "k2"; "k3"];
             step_sources := ["arxiv"] |};
          {| step_description := "Search for specific aspects and details";
             step_keywords := ["k4"; "k5"];
             step_sources := ["arxiv"] |} ].
Proof. do 2 eexists. split; reflexivity. Qed.

Lemma C9_sample_run :
  ∃ d t,
    run (world_answering keywords_reply) []
        (synthesize_answer question (Some [result_b])) = (Returned d, t)
    ∧ ans_confidence d = Some (85 # 100).
Proof.
  do 2 eexists. split; [reflexivity|].
  refine (proj1 (C9_confidence_is_constant
                   (world_answering keywords_reply) [] question [result_b] _ _ _ _ _)).
  - discriminate.
  - reflexivity.
  - reflexivity.
Defined.

Lemma C10_sample_run :
  ∃ d t prompt,
    run (world_answering keywords_reply) []
        (synthesize_answer "lithium" (Some [result_a])) = (Returned d, t)
    ∧ omap sent_messages t = [ [ {| role := "user"; content := prompt |} ] ]
    ∧ substring_of "Hydrometallurgy recovers lithium." prompt.
Proof.
  destruct (C10_snippet_truncated_in_sources_full_in_context
              (world_answering keywords_reply) [] "lithium" [result_a]
              _ _ ltac:(discriminate) eq_refl eq_refl)
    as (prompt & Hsent & Hall).
  destruct (Hall 0 result_a ltac:(lia) eq_refl) as (s & entry & Hs & _ & _ & _ & Hin).
  change (VStr "Hydrometallurgy recovers lithium." = VStr s) in Hs.
  injection Hs as <-.
  do 2 eexists. exists prompt. split; [reflexivity|]. split; [exact Hsent | exact Hin].
Defined.

(** A snippet of 300 characters is cut to its first 200 in the sources. *)
Example long_snippet_cut :
  let long := string_of_list_ascii (replicate 300 (ascii_of_nat 120)) in
  ∃ d t,
    run (world_answering keywords_reply) []
        (synthesize_answer question (Some [ {[ "snippet" := VStr long ]} ]))
    = (Returned d, t)
    ∧ src_snippet <$> ans_sources d
      = [ VStr (string_of_list_ascii (replicate 200 (ascii_of_nat 120))) ].
Proof. do 2 eexists. split; vm_compute; reflexivity. Qed.

(** A snippet that is not a string ends the call in the error dict,
    although every call to the model would have been answered. *)
Example non_text_snippet_is_an_error :
  ∃ t,
    run (world_answering keywords_reply) []
        (synthesize_answer question (Some [result_a; result_c]))
    = (Returned (error_answer question
                   (Exn "TypeError" "'NoneType' object is not subscriptable" None)), t)
    ∧ omap sent_messages t = [].
Proof. eexists. split; reflexivity. Qed.

End SampleRuns.

Section SampleFailures.
Import Py IO Models Tools ToolsSpec DuckDuckGo Samples.

Local Abbreviation question := "advances in battery recycling".
Local Abbreviation google :=
  (search_google (response:=string) (SearchResult:=sample_result)
     (λ r, r.1.1) (λ r, r.1.2) (λ r, r.2) (λ _, "google") (λ _, 1 # 1)).

(** C4 on a sample.  The model refuses the synthesis request: the call
    returns, it does not raise, and what it returns is the error dict with
    its fixed content. *)
Lemma C4_returns_placeholder_on_failure :
  ∃ d t,
    run (world_chat_failing 0) [] (synthesize_answer question (Some [result_a]))
    = (Returned d, t)
    ∧ Some quota_error ∈ capability_failure <$> t
    ∧ ans_error d = Some "quota exceeded"
    ∧ ans_content d = "An error occurred while synthesizing the answer."
    ∧ ans_sources d = []
    ∧ ¬ ∃ e, run (world_chat_failing 0) []
                 (synthesize_answer question (Some [result_a])) = (Raised e, t).
Proof.
  do 2 eexists. split; [reflexivity|]. split_and!; try reflexivity.
  - cbn. repeat first [apply list_elem_of_here | apply list_elem_of_further].
  - by intros [e [=]].
Qed.

Lemma C4_sample_run :
  ∃ o t,
    run (world_chat_failing 0) []
        (synthesize_answer question (Some [result_a; result_b])) = (o, t)
    ∧ o = Returned (error_answer question quota_error).
Proof.
  do 2 eexists. split; [reflexivity|].
  refine (proj1 (C4_capability_failure_returns_error_dict
                   (world_chat_failing 0) [] question [result_a; result_b]
                   _ _ quota_error _ _ _)).
  - discriminate.
  - reflexivity.
  - cbn. repeat first [apply list_elem_of_here | apply list_elem_of_further].
Defined.

(** C5 on a sample.  The keywords are obtained, then the model refuses the
    strategy request: the call returns, it does not raise, and what it
    returns is the error dict, without the keywords. *)
Lemma C5_returns_error_plan_on_failure :
  ∃ d t,
    run (world_chat_failing 1) [] (create_research_plan question None) = (Returned d, t)
    ∧ Some quota_error ∈ capability_failure <$> t
    ∧ omap extracted_text t = [keywords_reply]
    ∧ plan_error d = Some "quota exceeded"
    ∧ plan_keywords d = []
    ∧ plan_search_steps d = []
    ∧ ¬ ∃ e, run (world_chat_failing 1) [] (create_research_plan question None)
             = (Raised e, t).
Proof.
  do 2 eexists. split; [reflexivity|]. split_and!; try reflexivity.
  - cbn. repeat first [apply list_elem_of_here | apply list_elem_of_further].
  - by intros [e [=]].
Qed.

Lemma C5_sample_run :
  ∃ o t,
    run (world_chat_failing 0) [] (create_research_plan question (Some ["google"]))
    = (o, t)
    ∧ o = Returned (error_plan question ["google"] quota_error).
Proof.
  do 2 eexists. split; [reflexivity|].
  refine (proj1 (C5_capability_failure_returns_error_plan
                   (world_chat_failing 0) [] question (Some ["google"])
                   _ _ quota_error _ _)).
  - reflexivity.
  - cbn. repeat first [apply list_elem_of_here | apply list_elem_of_further].
Defined.

(** C6 on a sample.  The Google provider is unreachable: [search_google]
    returns, it does not raise, and what it returns carries an empty result
    list. *)
Lemma C6_search_google_returns_empty_results :
  ∃ d t,
    run world_google_down [] (google question 10) = (Returned d, t)
    ∧ Some network_error ∈ provider_failure <$> t
    ∧ sr_error d = Some "network unreachable"
    ∧ sr_results d = []
    ∧ ¬ ∃ e, run world_google_down [] (google question 10) = (Raised e, t).
Proof.
  do 2 eexists. split; [reflexivity|]. split_and!; try reflexivity.
  - cbn. repeat first [apply list_elem_of_here | apply list_elem_of_further].
  - by intros [e [=]].
Qed.

Lemma C6_sample_run :
  run world_ddg_down [] (search sample_init question "query-1" 25)
  = (Raised (wrapped network_error),
     [ Event (DdgsText question 10) (Raised network_error) ])
  ∧ ∃ o t,
      run world_google_down [] (google question 10) = (o, t)
      ∧ o = Returned (error_reply question network_error).
Proof.
  pose proof (C6_provider_failure_raised_by_service_recorded_by_tool
                (response:=string) sample_init
                (λ r, r.1.1) (λ r, r.1.2) (λ r, r.2) (λ _, "google")
                (λ _, 1 # 1)) as [Hservice Htool].
  split.
  - exact (proj1 (Hservice world_ddg_down [] question "query-1" 25%Z
                    network_error eq_refl)).
  - do 2 eexists. split; [reflexivity|].
    refine (proj1 (Htool world_google_down [] question 10%Z _ _ network_error _ _)).
    + reflexivity.
    + cbn. repeat first [apply list_elem_of_here | apply list_elem_of_further].
Defined.

(** With the provider up, [search_google] returns the converted results. *)
Example search_google_returns :
  ∃ t,
    run (world_answering keywords_reply) [] (google question 10)
    = (Returned {| sr_query := question;
                   sr_source := "google";
                   sr_error := None;
                   sr_results_count := 1;
                   sr_results :=
                     [ {| rd_title := "Battery recycling";
                          rd_url := "http://x.com/a";
                          rd_snippet := "Hydrometallurgy recovers lithium.";
                          rd_source := "google";
                          rd_relevance_score := 1 # 1 |} ] |}, t)
    ∧ omap logged_error t = [].
Proof. eexists. split; reflexivity. Qed.

(** With the provider up, [search] returns the validated results. *)
Example ddg_search_returns :
  run world_ddg_up [] (search sample_init question "query-1" 1)
  = (Returned [ ("Battery recycling", "http://x.com/a",
                 "Hydrometallurgy recovers lithium.") ],
     [ Event (DdgsText question 1) (Returned [ddg_item]) ]).
Proof. reflexivity. Qed.

End SampleFailures.

Section SampleRequests.
Import Py IO Models Routes Samples.

Local Abbreviation post := (post_research sample_source_of_value sample_handler).

Lemma C7_sample_run :
  ∃ errors,
    errors ≠ []
    ∧ validate sample_source_of_value
        {| body_content := Some (VStr ""); body_search_sources := Some [VStr "google"] |}
      = inl errors
    ∧ post {| body_content := Some (VStr "");
              body_search_sources := Some [VStr "google"] |}
      = Ret (Unprocessable errors)
    ∧ ∀ (w : env handlerE) hist,
        run w hist (post {| body_content := Some (VStr "");
                            body_search_sources := Some [VStr "google"] |})
        = (Returned (Unprocessable errors), []).
Proof.
  apply (C7_invalid_request_rejected_before_handler
           sample_source_of_value sample_handler
           {| body_content := Some (VStr "");
              body_search_sources := Some [VStr "google"] |}).
  left. reflexivity.
Defined.

Example long_question_rejected :
  post {| body_content := Some (VStr long_question);
          body_search_sources := Some [VStr "google"] |}
  = Ret (Unprocessable [("content", StringTooLong 2000)]).
Proof. vm_compute. reflexivity. Qed.

Example no_sources_rejected :
  post {| body_content := Some (VStr "advances in battery recycling");
          body_search_sources := Some [] |}
  = Ret (Unprocessable [("search_sources", TooShort 1)]).
Proof. reflexivity. Qed.

(** A valid body reaches the handler. *)
Example valid_request_handled :
  run world_handler []
      (post {| body_content := Some (VStr "advances in battery recycling");
               body_search_sources := Some [VStr "google"; VStr "arxiv"] |})
  = (Returned (Handled "answer"),
     [ Event (ExecuteQuery "advances in battery recycling" [GOOGLE; ARXIV]) "answer" ]).
Proof. reflexivity. Qed.

End SampleRequests.

(** * Further properties *)

(** ** [search_google] *)

Section SearchGoogleFacts.
Import Py IO Models Tools ToolsSpec MoreSpec.
Context {response SearchResult : Type}.
Context (sr_title sr_url_str sr_snippet sr_source_value : SearchResult → string).
Context (sr_relevance_score : SearchResult → Q).
Local Abbreviation E := (@toolsE response SearchResult).
Local Abbreviation search_google :=
  (search_google (response:=response)
     sr_title sr_url_str sr_snippet sr_source_value sr_relevance_score).
Local Abbreviation to_result_dict :=
  (to_result_dict sr_title sr_url_str sr_snippet sr_source_value sr_relevance_score).
Implicit Types (w : env E) (hist t : list (event E)).

(** X1. [search_google] never raises, whatever the service does.  The dict
    it returns echoes the query, names "google" as its source, and its
    [results_count] is the length of its [results]; when it carries an
    ["error"] the results are empty.  The run makes no call to the
    text-generation capability. *)
Theorem search_google_reply_is_consistent w hist query max_results :
  ∃ d t,
    run w hist (search_google query max_results) = (Returned d, t)
    ∧ sr_query d = query
    ∧ sr_source d = "google"
    ∧ sr_results_count d = length (sr_results d)
    ∧ (is_Some (sr_error d) → sr_results d = [])
    ∧ Forall (λ ev, is_capability_call ev = false) t.
Proof.
  unfold Tools.search_google. simpl. answer_all w.
  all: do 2 eexists; split; [reflexivity|]; cbn.
  all: rewrite ?length_map; split_and!; try done.
  all: try (by intros [? [=]]).
  all: by repeat constructor.
Qed.

(** X2. When [search_google] returns a dict without ["error"], the run was:
    the opening log line, the service, one fresh uuid, one search with the
    query, that uuid as query id and [max_results] as given (no bound is
    applied), and the closing log line; the results are the conversions of
    what the service returned, in the same order and number. *)
Theorem search_google_success_converts_in_order w hist query max_results d t :
  run w hist (search_google query max_results) = (Returned d, t) →
  sr_error d = None →
  ∃ query_id found,
    t = [ Event (LoggerInfo ("Executing Google search: " +:+ query)) ();
          Event GetGoogleService (Returned ());
          Event Uuid4 query_id;
          Event (GoogleSearch query query_id max_results) (Returned found);
          Event (LoggerInfo ("Google search found "
                             +:+ pretty (length found) +:+ " results")) () ]
    ∧ sr_results d = to_result_dict <$> found
    ∧ sr_results_count d = length found.
Proof.
  unfold Tools.search_google. simpl. answer_all w.
  all: intros [= <- <-]; try done.
  all: intros _; rewrite length_map; do 2 eexists; by split_and!.
Qed.

End SearchGoogleFacts.

(** ** [create_research_plan] and [synthesize_answer] *)

Section ToolFacts.
Import Py IO Models Tools ToolsSpec MoreSpec.
Context {response SearchResult : Type}.
Local Abbreviation E := (@toolsE response SearchResult).
Local Abbreviation loop_body := (@synthesize_loop_body response SearchResult).
Implicit Types (w : env E) (hist t : list (event E)).
Implicit Types (result : gmap string pyval) (rs shown : list (gmap string pyval)).

Local Arguments parse_keywords : simpl never.
Local Arguments build_search_steps : simpl never.

(** X3. In a returned plan the search steps share the keywords out: the
    keywords of the steps, read step after step, are the keywords of the
    plan, each once and in order.  Every step has the sources of the plan,
    and there are one or two steps. *)
Theorem plan_steps_partition_keywords w hist query sources d t :
  run w hist (create_research_plan query sources) = (Returned d, t) →
  plan_error d = None →
  concat (step_keywords <$> plan_search_steps d) = plan_keywords d
  ∧ Forall (λ step, step_sources step = plan_sources d) (plan_search_steps d)
  ∧ 1 ≤ length (plan_search_steps d) ≤ 2.
Proof.
  unfold create_research_plan. simpl. answer_all w.
  all: intros [= <- <-]; try done.
  intros _. cbn. unfold build_search_steps.
  destruct (3 <? length _) eqn:Hlen; simpl.
  - rewrite app_nil_r, take_drop. split_and!; [done | by repeat constructor | lia..].
  - apply Nat.ltb_ge in Hlen. rewrite app_nil_r, take_ge by done.
    split_and!; [done | by repeat constructor | lia..].
Qed.

(** X4. A returned plan was obtained with exactly two requests to the
    model, the keyword request at temperature 0.3 and then the strategy
    request at temperature 0.5, each a single user message.  Both messages
    contain the question, and the strategy message contains every keyword
    of the plan. *)
Theorem plan_requests_keywords_then_strategy w hist query sources d t :
  run w hist (create_research_plan query sources) = (Returned d, t) →
  plan_error d = None →
  ∃ first second,
    omap sent_messages t
    = [ [ {| role := "user"; content := first |} ];
        [ {| role := "user"; content := second |} ] ]
    ∧ omap sent_temperature t = [ 3 # 10; 5 # 10 ]
    ∧ substring_of query first
    ∧ substring_of query second
    ∧ ∀ k, k ∈ plan_keywords d → substring_of k second.
Proof.
  unfold create_research_plan. simpl. answer_all w.
  all: intros [= <- <-]; try done.
  intros _. do 2 eexists. split; [reflexivity|]. split; [reflexivity|].
  cbn [plan_keywords]. unfold keyword_prompt, strategy_prompt. split_and!.
  - do 4 apply substring_of_app_l. apply substring_of_app_r, substring_of_refl.
  - do 3 apply substring_of_app_l. apply substring_of_app_r, substring_of_refl.
  - intros k Hk. do 6 apply substring_of_app_l. by apply substring_of_join.
Qed.

(** X5. [synthesize_answer] reads the first ten search results only: on a
    list it is the same program as on the first ten entries of that list,
    so in every environment it performs the same events and returns the
    same dict; what follows the tenth entry is never looked at. *)
Theorem synthesize_answer_reads_first_ten query rs :
  synthesize_answer (response:=response) (SearchResult:=SearchResult) query (Some rs)
  = synthesize_answer query (Some (take 10 rs))
  ∧ ∀ w hist,
      run w hist (synthesize_answer query (Some rs))
      = run w hist (synthesize_answer query (Some (take 10 rs))).
Proof.
  assert (synthesize_answer (response:=response) (SearchResult:=SearchResult)
            query (Some rs)
          = synthesize_answer query (Some (take 10 rs))) as Heq.
  { destruct rs as [|r rs]; [done|].
    unfold synthesize_answer. cbv beta iota delta [from_option id].
    rewrite take_take. change (take 10 (r :: rs)) with (r :: take 9 rs).
    reflexivity. }
  split; [done|]. intros w hist. by rewrite Heq.
Qed.

(** What the loop raises is the [TypeError] of slicing the first snippet
    that is not a string. *)
Lemma synthesize_loop_raises shown : ∀ i acc e,
  for_in (E:=E) (enumerate i shown) loop_body acc = Throw e →
  ∃ k result,
    shown !! k = Some result
    ∧ Forall has_text_snippet (take k shown)
    ∧ ¬ has_text_snippet result
    ∧ py_slice_to 200 (snippet_of result) = Raised e.
Proof.
  induction shown as [|r l IH]; intros i [cp ss] e; simpl; [done|].
  destruct (dict_get r "snippet" (VStr "")) as [|b|z|s] eqn:Hs; simpl.
  1-3: intros [= <-]; exists 0, r; unfold has_text_snippet, snippet_of;
       rewrite Hs; split_and!; [done | constructor | by intros [? [=]] | done].
  intros Hloop. apply IH in Hloop as (k & result & Hlook & Hbefore & Hbad & Hslice).
  exists (S k), result. split_and!; [done | | done | done].
  cbn [take]. constructor; [by exists s | done].
Qed.

(** X6. When one of the first ten search results has a snippet that is not
    a string, [synthesize_answer] sends no request to the model: it returns
    the error dict, and unless getting the service already failed, the
    error is the [TypeError] raised by slicing the snippet of the first
    such result: "'T' object is not subscriptable", where T is the type of
    that snippet. *)
Theorem synthesize_answer_rejects_non_text_snippet w hist query rs o t :
  rs ≠ [] →
  ¬ Forall has_text_snippet (presented rs) →
  run w hist (synthesize_answer query (Some rs)) = (o, t) →
  omap sent_messages t = []
  ∧ ∃ e,
      o = Returned (error_answer query e)
      ∧ (omap capability_failure t = [] →
         ∃ k result,
           presented rs !! k = Some result
           ∧ Forall has_text_snippet (take k (presented rs))
           ∧ ¬ has_text_snippet result
           ∧ py_slice_to 200 (snippet_of result) = Raised e
           ∧ e = Exn "TypeError"
                   ("'" +:+ type_name (snippet_of result)
                    +:+ "' object is not subscriptable") None).
Proof.
  destruct rs as [|r rs]; [done|]. intros _ Hbad.
  unfold synthesize_answer. cbv beta iota delta [from_option id].
  change (take 10 (r :: rs)) with (presented (r :: rs)).
  destruct (synthesize_loop_pure (response:=response) (SearchResult:=SearchResult)
              (presented (r :: rs)) 1 ([], [])) as [[[cp ss] Hloop] | [e Hloop]].
  { by apply synthesize_loop_returns in Hloop as (Hall & _). }
  destruct (synthesize_loop_raises _ _ _ _ Hloop)
    as (k & result & Hlook & Hbefore & Hnot & Hslice).
  rewrite Hloop. simpl. answer_all w.
  all: intros [= <- <-]; split; [done|].
  - exists e. split; [done|]. intros _. exists k, result.
    split_and!; try done.
    unfold py_slice_to in Hslice.
    destruct (snippet_of result) as [|b|z|s] eqn:Hs; try by injection Hslice as <-.
    exfalso. apply Hnot. by exists s.
  - eexists. split; [reflexivity|]. by cbn.
Qed.

(** X7. Whatever it is given and whatever the environment does,
    [synthesize_answer] sends at most one request to the model and makes
    no call to the search services, and [create_research_plan] sends at
    most two requests and makes no call to the search services either. *)
Theorem text_tools_bound_requests_and_never_search w hist query :
  (∀ search_results o t,
     run w hist (synthesize_answer query search_results) = (o, t) →
     length (omap sent_messages t) ≤ 1
     ∧ Forall (λ ev, is_search_call ev = false) t)
  ∧ (∀ sources o t,
       run w hist (create_research_plan query sources) = (o, t) →
       length (omap sent_messages t) ≤ 2
       ∧ Forall (λ ev, is_search_call ev = false) t).
Proof.
  split.
  - intros [[|r rs]|] o t Hrun.
    + rewrite no_results_run in Hrun by done. injection Hrun as <- <-.
      split; [cbn; lia | by repeat constructor].
    + apply synthesize_answer_run in Hrun
        as [(_ & resp & text & -> & ->)
           | (e & -> & [-> | [[-> _] | [-> | [resp ->]]]])];
        (split; [cbn; lia | by repeat constructor]).
    + rewrite no_results_run in Hrun by done. injection Hrun as <- <-.
      split; [cbn; lia | by repeat constructor].
  - intros sources o t. unfold create_research_plan. simpl. answer_all w.
    all: intros [= <- <-]; (split; [cbn; lia | by repeat constructor]).
Qed.

End ToolFacts.

(** ** [strip], [split] and [join] *)

Section StripFacts.
Import Py MoreSpec.
Implicit Types (s k : string) (l : list ascii) (c : ascii).

Lemma chars_inj s1 s2 : chars s1 = chars s2 → s1 = s2.
Proof.
  intros H. rewrite <-(string_of_list_ascii_of_string s1).
  rewrite <-(string_of_list_ascii_of_string s2). unfold chars in H. by rewrite H.
Qed.

Lemma chars_append s1 s2 : chars (s1 +:+ s2) = chars s1 ++ chars s2.
Proof.
  induction s1 as [|c s1 IH]; [done|].
  change (c :: chars (s1 +:+ s2) = c :: chars s1 ++ chars s2). by rewrite IH.
Qed.

Lemma chars_rev_app s1 s2 :
  chars (String.rev_app s1 s2) = reverse (chars s1) ++ chars s2.
Proof.
  revert s2. induction s1 as [|c s1 IH]; intros s2; [done|].
  cbn [String.rev_app]. rewrite IH.
  change (chars (String c s1)) with (c :: chars s1).
  change (chars (String c s2)) with (c :: chars s2).
  by rewrite reverse_cons, <-app_assoc.
Qed.

Lemma chars_rev s : chars (String.rev s) = reverse (chars s).
Proof. unfold String.rev. by rewrite chars_rev_app, app_nil_r. Qed.

Lemma chars_lstrip s : chars (lstrip s) = skip_spaces (chars s).
Proof.
  induction s as [|c s IH]; [done|].
  cbn [lstrip]. change (chars (String c s)) with (c :: chars s). cbn [skip_spaces].
  by destruct (is_space c).
Qed.

(** [strip] on the characters. *)
Lemma chars_strip s :
  chars (strip s) = reverse (skip_spaces (reverse (skip_spaces (chars s)))).
Proof.
  unfold strip, rstrip. by rewrite chars_rev, chars_lstrip, chars_rev, chars_lstrip.
Qed.

Lemma skip_spaces_head l c : head (skip_spaces l) = Some c → is_space c = false.
Proof.
  induction l as [|x l IH]; [done|]. cbn [skip_spaces].
  destruct (is_space x) eqn:Hx; [done|]. by intros [= <-].
Qed.

Lemma skip_spaces_id l :
  (∀ c, head l = Some c → is_space c = false) → skip_spaces l = l.
Proof.
  destruct l as [|x l]; [done|]. intros H. cbn [skip_spaces].
  by rewrite (H x eq_refl).
Qed.

Lemma skip_spaces_snoc l c :
  is_space c = false → skip_spaces (l ++ [c]) = skip_spaces l ++ [c].
Proof.
  intros Hc. induction l as [|x l IH]; cbn [skip_spaces app].
  - by rewrite Hc.
  - by destruct (is_space x).
Qed.

Lemma skip_spaces_subset l c : c ∈ skip_spaces l → c ∈ l.
Proof.
  induction l as [|x l IH]; [done|]. cbn [skip_spaces].
  destruct (is_space x); [|done]. intros H. apply elem_of_cons. right. by apply IH.
Qed.

(** What [strip] leaves has no white space at either end. *)
Lemma strip_ends s :
  (∀ c, head (chars (strip s)) = Some c → is_space c = false)
  ∧ (∀ c, last (chars (strip s)) = Some c → is_space c = false).
Proof.
  rewrite chars_strip. split; intros c.
  - rewrite head_reverse.
    destruct (skip_spaces (chars s)) as [|x y] eqn:Hy; [done|].
    assert (is_space x = false) as Hx by (apply (skip_spaces_head (chars s)); by rewrite Hy).
    rewrite reverse_cons, skip_spaces_snoc, last_snoc by done. by intros [= <-].
  - rewrite last_reverse. apply skip_spaces_head.
Qed.

(** A string without white space at either end is left as it is. *)
Lemma strip_id s :
  (∀ c, head (chars s) = Some c → is_space c = false) →
  (∀ c, last (chars s) = Some c → is_space c = false) →
  strip s = s.
Proof.
  intros Hhead Hlast. apply chars_inj. rewrite chars_strip.
  rewrite (skip_spaces_id (chars s)) by done.
  rewrite skip_spaces_id; [by rewrite reverse_involutive|].
  intros c. rewrite head_reverse. apply Hlast.
Qed.

Lemma strip_idemp s : strip (strip s) = strip s.
Proof. destruct (strip_ends s). by apply strip_id. Qed.

Lemma strip_subset s c : c ∈ chars (strip s) → c ∈ chars s.
Proof.
  rewrite chars_strip, elem_of_reverse. intros H.
  apply skip_spaces_subset. apply elem_of_reverse. by apply skip_spaces_subset.
Qed.

Lemma truthy_chars s : truthy s = true ↔ chars s ≠ [].
Proof. by destruct s. Qed.

(** The pieces of a split do not contain the separator. *)
Lemma split_char_no_sep sep s k : k ∈ split_char sep s → sep ∉ chars k.
Proof.
  revert k. induction s as [|c s IH]; intros k; cbn [split_char].
  - intros ->%list_elem_of_singleton. apply not_elem_of_nil.
  - destruct (Ascii.eqb_spec c sep) as [->|Hne].
    + intros [->|Hk]%elem_of_cons; [apply not_elem_of_nil | by apply IH].
    + destruct (split_char sep s) as [|piece pieces] eqn:Hsplit.
      * intros ->%list_elem_of_singleton.
        intros [->|[]%elem_of_nil]%elem_of_cons. done.
      * intros [->|Hk]%elem_of_cons.
        -- intros [->|Hin]%elem_of_cons; [done|].
           by apply (IH piece); [apply list_elem_of_here|].
        -- apply IH. by apply list_elem_of_further.
Qed.

Lemma split_char_whole sep k : sep ∉ chars k → split_char sep k = [k].
Proof.
  induction k as [|c k IH]; [done|]. intros Hno. cbn [split_char].
  destruct (Ascii.eqb_spec c sep) as [->|Hne].
  - exfalso. apply Hno. apply list_elem_of_here.
  - rewrite IH; [done|]. intros Hin. apply Hno. by apply list_elem_of_further.
Qed.

Lemma split_char_append sep k rest :
  sep ∉ chars k →
  split_char sep (k +:+ String sep rest) = k :: split_char sep rest.
Proof.
  induction k as [|c k IH]; intros Hno.
  - change ("" +:+ String sep rest) with (String sep rest). cbn [split_char].
    by rewrite Ascii.eqb_refl.
  - change (String c k +:+ String sep rest) with (String c (k +:+ String sep rest)).
    cbn [split_char]. destruct (Ascii.eqb_spec c sep) as [->|Hne].
    + exfalso. apply Hno. apply list_elem_of_here.
    + rewrite IH; [done|]. intros Hin. apply Hno. by apply list_elem_of_further.
Qed.

(** Splitting what was joined gives the parts back. *)
Lemma split_char_join sep ks :
  ks ≠ [] →
  Forall (λ k, sep ∉ chars k) ks →
  split_char sep (join (String sep "") ks) = ks.
Proof.
  intros Hne Hall. induction Hall as [|k ks Hk Hall IH]; [done|].
  destruct ks as [|k' ks].
  - rewrite join_singleton. by apply split_char_whole.
  - rewrite join_cons.
    change (String sep "" +:+ join (String sep "") (k' :: ks))
      with (String sep (join (String sep "") (k' :: ks))).
    rewrite split_char_append by done. by rewrite IH.
Qed.

Lemma clean_keyword_strip k : clean_keyword k → strip k = k ∧ truthy k = true.
Proof.
  intros ((c & Hc & Hspace) & (c' & Hc' & Hspace') & _). split.
  - apply strip_id; intros x Hx; congruence.
  - apply truthy_chars. by destruct (chars k).
Qed.

(** The ends of a join are the ends of its first and last part. *)
Lemma join_head sep k ks c :
  head (chars k) = Some c → head (chars (join sep (k :: ks))) = Some c.
Proof.
  intros Hc. destruct ks as [|k' ks]; [by rewrite join_singleton|].
  rewrite join_cons, chars_append. by destruct (chars k).
Qed.

Lemma last_app_nonempty {A} (l1 l2 : list A) : l2 ≠ [] → last (l1 ++ l2) = last l2.
Proof.
  intros Hne. destruct (l2) as [|x l2' _] using rev_ind; [done|].
  by rewrite app_assoc, !last_snoc.
Qed.

Lemma join_last sep ks : ∀ k k' c,
  last (k :: ks) = Some k' → last (chars k') = Some c →
  last (chars (join sep (k :: ks))) = Some c.
Proof.
  induction ks as [|k2 ks IH]; intros k k' c Hlast Hc.
  - rewrite join_singleton. by injection Hlast as ->.
  - rewrite join_cons, !chars_append.
    rewrite app_assoc, last_app_nonempty.
    + by apply (IH k2 k' c).
    + intros Hnil. specialize (IH k2 k' c Hlast Hc). rewrite Hnil in IH. done.
Qed.

End StripFacts.

(** ** Keywords *)

Section KeywordFacts.
Import Py IO Models Tools ToolsSpec MoreSpec.
Implicit Types (k text : string) (ks : list string).

(** X8. Every keyword [parse_keywords] takes from the text of the model is
    clean: it is not empty, it has no white space at its ends (stripping it
    again changes nothing) and it holds no newline. *)
Theorem parse_keywords_gives_clean_keywords text :
  Forall (λ k, clean_keyword k ∧ strip k = k) (parse_keywords text).
Proof.
  apply Forall_forall. intros k' Hk'. unfold parse_keywords in Hk'.
  apply list_elem_of_In, in_map_iff in Hk' as (k & <- & Hk).
  apply list_elem_of_In, list_elem_of_filter in Hk as [Hfull Hk].
  apply truthy_chars in Hfull. destruct (strip_ends k) as [Hhead Hlast].
  split; [|apply strip_idemp]. split_and!.
  - destruct (chars (strip k)) as [|c l] eqn:Hc; [done|]. exists c. split; [done|].
    by apply Hhead.
  - destruct (last (chars (strip k))) as [c|] eqn:Hc.
    + exists c. split; [done|]. by apply Hlast.
    + by apply last_None in Hc.
  - intros Hin. apply strip_subset in Hin.
    by apply (split_char_no_sep _ _ _ Hk).
Qed.

Lemma clean_keywords_kept ks :
  Forall clean_keyword ks →
  map strip (filter (λ k, truthy (strip k) = true) ks) = ks.
Proof.
  induction 1 as [|k ks Hk _ IH]; [done|].
  destruct (clean_keyword_strip k Hk) as [Hstrip Hfull].
  rewrite filter_cons_True by (by rewrite Hstrip).
  cbn [map]. by rewrite Hstrip, IH.
Qed.

(** X9. Clean keywords written one per line are read back as they are:
    [parse_keywords] of their join with newlines is the list itself. *)
Theorem parse_keywords_reads_back_joined_keywords ks :
  Forall clean_keyword ks → parse_keywords (join nl ks) = ks.
Proof.
  intros Hall. destruct ks as [|k ks]; [done|].
  unfold parse_keywords.
  assert (strip (join nl (k :: ks)) = join nl (k :: ks)) as ->.
  { destruct (last (k :: ks)) as [k'|] eqn:Hlast; [|by apply last_None in Hlast].
    assert (clean_keyword k') as ((_ & _) & (c' & Hc' & Hs') & _).
    { eapply Forall_forall; [exact Hall|]. by eapply last_Some_elem_of. }
    assert (clean_keyword k) as ((c & Hc & Hs) & _ & _) by (by inversion Hall).
    apply strip_id; intros x Hx.
    - rewrite (join_head nl k ks c Hc) in Hx. congruence.
    - rewrite (join_last nl ks k k' c' Hlast Hc') in Hx. congruence. }
  change (ascii_of_nat 10) with newline. change nl with (String newline "").
  rewrite split_char_join; [by apply clean_keywords_kept | done |].
  eapply Forall_impl; [exact Hall|]. by intros x (_ & _ & Hno).
Qed.

End KeywordFacts.

Section AnswerFacts.
Import Py IO Models Tools ToolsSpec MoreSpec.
Context {response SearchResult : Type}.
Local Abbreviation E := (@toolsE response SearchResult).
Implicit Types (w : env E) (hist t : list (event E)).

(** X10. A returned answer echoes the question, its content is the one text
    the model returned with the white space at its ends removed (stripping
    it again changes nothing), and its [sources_count] is the length of its
    [sources], which is at most 10. *)
Theorem answer_content_is_stripped_text w hist query rs d t :
  rs ≠ [] →
  run w hist (synthesize_answer query (Some rs)) = (Returned d, t) →
  ans_error d = None →
  ∃ text,
    omap extracted_text t = [text]
    ∧ ans_content d = strip text
    ∧ strip (ans_content d) = ans_content d
    ∧ ans_query d = query
    ∧ ans_sources_count d = Some (length (ans_sources d))
    ∧ length (ans_sources d) ≤ 10.
Proof.
  destruct rs as [|r rs]; [done|]. intros _ Hrun Herr.
  apply synthesize_answer_success in Hrun as (_ & resp & text & -> & ->); [|done].
  exists text. cbn. rewrite length_imap. split_and!; try done.
  - apply strip_idemp.
  - unfold presented, max_sources. rewrite length_take. lia.
Qed.

End AnswerFacts.

(** ** [DuckDuckGoSearchService] *)

Section DuckDuckGoFacts.
Import Py IO Models DuckDuckGo.
Context {UUID SearchResult : Type}.
Context (SearchResult_init :
           UUID → SearchSource → pyval → pyval → pyval → outcome SearchResult).
Local Abbreviation D := (@ddgE).
Local Abbreviation search := (search SearchResult_init).
Local Abbreviation search_with_keywords := (search_with_keywords SearchResult_init).
Local Abbreviation append_result := (append_result SearchResult_init).
Implicit Types (w : env D) (hist t : list (event D)) (query_id : UUID).
Implicit Types (item : gmap string pyval) (items : list (gmap string pyval)).

(** The [SearchResult] built from a provider item: ["title"], ["href"] and
    ["body"], each the empty string when the key is missing. *)
Local Abbreviation built query_id item :=
  (SearchResult_init query_id DUCKDUCKGO
     (dict_get item "title" (VStr ""))
     (dict_get item "href" (VStr ""))
     (dict_get item "body" (VStr ""))).

Lemma append_results_returned query_id items : ∀ acc acc',
  for_in (E:=D) items (append_result query_id) acc = Ret acc' →
  ∃ results,
    acc' = acc ++ results
    ∧ Forall2 (λ item r, built query_id item = Returned r) items results.
Proof.
  induction items as [|item items IH]; intros acc acc'; simpl.
  - intros [= <-]. exists []. by rewrite app_nil_r.
  - unfold DuckDuckGo.append_result at 1.
    destruct (built query_id item) as [r|e] eqn:Hitem; simpl; [|done].
    intros Hrest. apply IH in Hrest as (results & -> & Hall).
    exists (r :: results). rewrite <-app_assoc. split; [done|]. by constructor.
Qed.

Lemma append_results_raised query_id items : ∀ acc,
  Exists (λ item, is_returned (built query_id item) = false) items →
  ∃ item e,
    item ∈ items
    ∧ built query_id item = Raised e
    ∧ for_in (E:=D) items (append_result query_id) acc = Throw e.
Proof.
  induction items as [|item items IH]; intros acc Hbad; [by inversion Hbad|].
  simpl. unfold DuckDuckGo.append_result at 1.
  destruct (built query_id item) as [r|e] eqn:Hitem; simpl.
  - destruct (IH (acc ++ [r])) as (item' & e & Hin & Hraise & Hloop).
    { inversion Hbad as [? ? Hhere|]; subst; [|done]. by rewrite Hitem in Hhere. }
    exists item', e. split_and!; [by apply list_elem_of_further | done | done].
  - exists item, e. split_and!; [apply list_elem_of_here | done | done].
Qed.

(** X11. When [search] returns, the run was one provider call and the
    result holds one validated [SearchResult] for each item the provider
    gave, in the provider's order: as many results as items, also when the
    provider gave more than it was asked for. *)
Theorem search_returns_one_result_per_item w hist query query_id num_results results t :
  run w hist (search query query_id num_results) = (Returned results, t) →
  ∃ items,
    t = [ Event (DdgsText query (Z.min num_results 10)) (Returned items) ]
    ∧ Forall2 (λ item r, built query_id item = Returned r) items results
    ∧ length results = length items.
Proof.
  unfold DuckDuckGo.search, run_sync. simpl.
  destruct (w _ hist (DdgsText query (Z.min num_results 10))) as [items|e]; simpl; [|done].
  destruct (append_results_pure SearchResult_init query_id items [])
    as [[acc Hloop] | [e Hloop]]; rewrite Hloop; simpl; [|done].
  intros [= <- <-]. apply append_results_returned in Hloop as (rs & -> & Hall).
  exists items. split_and!; [done | done |]. symmetry. by eapply Forall2_length.
Qed.

(** X12. When the provider gives a list in which an item does not validate
    as a [SearchResult], [search] returns nothing of the list: it raises the
    wrapped validation error of an item of the list. *)
Theorem search_raises_when_an_item_is_invalid w hist query query_id num_results items :
  w _ hist (DdgsText query (Z.min num_results 10)) = Returned items →
  Exists (λ item, is_returned (built query_id item) = false) items →
  ∃ item e,
    item ∈ items
    ∧ built query_id item = Raised e
    ∧ run w hist (search query query_id num_results)
      = (Raised (wrapped e),
         [ Event (DdgsText query (Z.min num_results 10)) (Returned items) ]).
Proof.
  intros Hup Hbad.
  destruct (append_results_raised query_id items [] Hbad)
    as (item & e & Hin & Hitem & Hloop).
  exists item, e. split_and!; [done..|].
  unfold DuckDuckGo.search, run_sync. simpl. rewrite Hup. simpl. by rewrite Hloop.
Qed.

(** X13. Whatever [search] or [search_with_keywords] raises is an
    [Exception] made by [search] itself: its message is
    "DuckDuckGo Search error: " followed by the message of the exception
    that was caught, which it carries as its cause. *)
Theorem search_failures_are_wrapped w hist query query_id keywords num_results e' t :
  run w hist (search query query_id num_results) = (Raised e', t)
  ∨ run w hist (search_with_keywords query_id keywords num_results) = (Raised e', t) →
  ∃ e,
    e' = wrapped e
    ∧ exn_class e' = "Exception"
    ∧ exn_str e' = "DuckDuckGo Search error: " +:+ exn_str e
    ∧ exn_cause e' = Some e.
Proof.
  intros [Hrun | Hrun]; apply search_raises_wrapped in Hrun as [e ->];
    by exists e.
Qed.

(** X14. Every run of [search] makes exactly one provider call, and it asks
    for [min(num_results, 10)] results: never more than 10, and
    [num_results] itself whenever that is at most 10, zero and negative
    numbers included. *)
Theorem search_asks_for_at_most_ten w hist query query_id num_results o t :
  run w hist (search query query_id num_results) = (o, t) →
  ∃ asked answer,
    t = [ Event (DdgsText query asked) answer ]
    ∧ (asked ≤ 10)%Z
    ∧ (asked ≤ num_results)%Z
    ∧ ((num_results ≤ 10)%Z → asked = num_results).
Proof.
  intros Hrun. apply search_calls_provider_once in Hrun as [answer ->].
  exists (Z.min num_results 10), answer. split_and!; [done | lia..].
Qed.

End DuckDuckGoFacts.

(** ** [ResearchRequest], further *)

Section RequestFacts.
Import Py IO Models Routes RoutesSpec.
Context (SearchSource_of_value : pyval → option SearchSource).
Context {E : Type → Type} {R : Type}.
Context (submit_research : ResearchRequest → io E R).
Local Abbreviation validate := (validate SearchSource_of_value).
Local Abbreviation validate_items := (validate_items SearchSource_of_value).
Local Abbreviation post_research :=
  (post_research SearchSource_of_value submit_research).

Local Abbreviation good_sources := (good_sources SearchSource_of_value).

(** The members when every item is one, and otherwise one error for each
    item that is not, with its position. *)
Lemma validate_items_spec items : ∀ position,
  match validate_items position items with
  | inl errs =>
      errs = EnumValue <$> invalid_positions SearchSource_of_value position items
      ∧ errs ≠ []
  | inr srcs =>
      Forall2 (λ item src, SearchSource_of_value item = Some src) items srcs
      ∧ invalid_positions SearchSource_of_value position items = []
  end.
Proof.
  induction items as [|v items IH]; intros position.
  - split; [constructor | done].
  - specialize (IH (S position)). unfold invalid_positions in *.
    cbn [Routes.validate_items enumerate omap list_omap snd fst].
    destruct (SearchSource_of_value v) as [src|] eqn:Hv;
      destruct (Routes.validate_items _ (S position) items) as [errs|srcs];
      destruct IH as [IH1 IH2].
    + done.
    + split; [by constructor | done].
    + split; [|done]. cbn. by rewrite IH1.
    + split; [|done]. cbn. by rewrite IH2.
Qed.

Lemma validate_items_inr items position srcs :
  validate_items position items = inr srcs
  ↔ Forall2 (λ item src, SearchSource_of_value item = Some src) items srcs.
Proof.
  pose proof (validate_items_spec items position) as Hspec.
  destruct (Routes.validate_items _ position items) as [errs|srcs'].
  - destruct Hspec as [-> Hne]. split; [done|]. intros Hall. exfalso. apply Hne.
    clear Hne. revert position srcs Hall.
    induction items as [|v items IH]; intros position srcs Hall; [done|].
    inversion Hall as [|? src ? srcs' Hsrc Hall']; subst.
    unfold invalid_positions in *. cbn [enumerate omap list_omap snd fst].
    rewrite Hsrc. apply (IH (S position) srcs' Hall').
  - destruct Hspec as [Hall _]. split.
    + by intros [= <-].
    + intros Hall'. f_equal. revert srcs srcs' Hall Hall'. clear.
      induction items as [|v items IH]; intros srcs srcs'.
      * by do 2 inversion 1.
      * inversion 1; inversion 1; subst. f_equal; [congruence | by apply IH].
Qed.

Lemma validate_content_inr v s : validate_content v = inr s ↔ good_content v s.
Proof.
  unfold validate_content, content_min_length, content_max_length, good_content.
  destruct v as [[| | |s']|]; try (split; [done | by intros [[=] _]]).
  destruct (Nat.ltb_spec (String.length s') 1);
    [split; [done | intros [[= ->] ?]; lia]|].
  destruct (Nat.ltb_spec 2000 (String.length s'));
    [split; [done | intros [[= ->] ?]; lia]|].
  split; [intros [= ->]; split; [done | lia] | by intros [[= ->] _]].
Qed.

Lemma validate_search_sources_inr v srcs :
  validate_search_sources SearchSource_of_value v = inr srcs ↔ good_sources v srcs.
Proof.
  unfold validate_search_sources, search_sources_min_length, RoutesSpec.good_sources.
  destruct v as [items|]; [|split; [done | by intros (? & [=] & _)]].
  destruct (Routes.validate_items _ 0 items) as [err|srcs'] eqn:Hitems.
  - split; [done|]. intros (items' & [= <-] & _ & Hall).
    apply (validate_items_inr items 0) in Hall. congruence.
  - pose proof Hitems as Hall'. apply (validate_items_inr items 0) in Hall'.
    apply Forall2_length in Hall'.
    destruct (Nat.ltb_spec (length srcs') 1) as [Hshort|Hlong].
    + split; [done|]. intros (items' & [= <-] & Hne & Hall).
      destruct items; [done|]. simpl in *. lia.
    + split.
      * intros [= <-]. exists items. split_and!; [done | |].
        -- destruct items; [simpl in *; lia | done].
        -- by apply (validate_items_inr items 0).
      * intros (items' & [= <-] & Hne & Hall).
        apply (validate_items_inr items 0) in Hall. congruence.
Qed.





(** X15. A body validates as a [ResearchRequest] exactly when its content
    is a string of 1 to 2000 characters and its search sources are a
    non-empty list of [SearchSource] values.  The request then carries the
    question character for character (white space included) and the sources
    in their order, and [submit_research] is entered once with it. *)
Theorem validate_accepts_exactly_well_formed_bodies body request :
  (validate body = inr request
   ↔ good_content (body_content body) (content request)
     ∧ good_sources (body_search_sources body) (search_sources request))
  ∧ (validate body = inr request →
     post_research body = (r ← submit_research request; mret (Handled r))).
Proof.
  split.
  - rewrite <-validate_content_inr, <-validate_search_sources_inr.
    unfold Routes.validate. destruct request as [c srcs]. cbn [content search_sources].
    destruct (validate_content _) as [e1|c'];
      destruct (validate_search_sources _ _) as [e2|srcs'];
      split; try done; try (by intros [[=] _]); try (by intros [_ [=]]).
    + by intros [= -> ->].
    + by intros [[= ->] [= ->]].
  - intros Hvalid. unfold Routes.post_research. by rewrite Hvalid.
Qed.


End RequestFacts.

(** ** [search_arxiv] *)

Section ArxivFacts.
Import Py IO Models ToolsSpec ArxivTool.
Context {SearchResult authors : Type}.
Context (sr_title sr_url_str sr_snippet sr_source_value : SearchResult → string).
Context (sr_relevance_score : SearchResult → Q).
Context (sr_authors : SearchResult → authors).
Context (sr_published_date_str : SearchResult → string).
Local Abbreviation A := (@arxivE SearchResult).
Local Abbreviation search_arxiv :=
  (search_arxiv sr_title sr_url_str sr_snippet sr_source_value sr_relevance_score
     sr_authors sr_published_date_str).
Local Abbreviation to_paper_dict :=
  (to_paper_dict sr_title sr_url_str sr_snippet sr_source_value sr_relevance_score
     sr_authors sr_published_date_str).
Implicit Types (w : env A) (hist t : list (event A)).

(** X17. [search_arxiv] never raises.  The dict it returns echoes the
    query, names "arxiv" as its source, and its [results_count] is the
    length of its [results].  When the service raised [e], the dict carries
    [str(e)] as ["error"] and no results; when the dict has no ["error"],
    its results are the conversions of what the one search returned, in the
    same order. *)
Theorem search_arxiv_reply_is_consistent w hist query max_results o t :
  run w hist (search_arxiv query max_results) = (o, t) →
  ∃ d,
    o = Returned d
    ∧ ar_query d = query
    ∧ ar_source d = "arxiv"
    ∧ ar_results_count d = length (ar_results d)
    ∧ (∀ e, Some e ∈ arxiv_failure <$> t →
            ar_error d = Some (exn_str e) ∧ ar_results d = [])
    ∧ (ar_error d = None →
       ∃ found, omap arxiv_found t = [found]
                ∧ ar_results d = map to_paper_dict found).
Proof.
  unfold ArxivTool.search_arxiv. simpl. answer_all w.
  all: intros [= <- <-]; eexists; split; [reflexivity|]; cbn.
  all: rewrite ?length_map; split_and!; try done.
  all: try (intros failure Hin; member_cases Hin; by injection Hin as <-).
  all: intros _; eexists; by split.
Qed.

End ArxivFacts.

(** ** [ErrorHandlingMiddleware] and the middleware setup *)

Section MiddlewareFacts.
Import Py IO Middleware.
Context {Request Response : Type}.
Context (isinstance : exn → string → bool).
Context (repr_list : list string → string).
Local Abbreviation M := (@dispatchE Request Response).
Local Abbreviation dispatch := (dispatch (Response:=Response) isinstance).
Local Abbreviation setup_all_middleware := (setup_all_middleware repr_list).

(** X18. [ErrorHandlingMiddleware.dispatch] never raises.  When the rest of
    the chain returns a response, that response is returned as it is and
    nothing is logged.  When it raises [e], a JSON response is returned
    whose status is 400, 403, 404 or 500, and the text [str(e)] is sent to
    the client: as the message for 400, 403 and 404, as the details for
    500, whose message is the fixed "An unexpected error occurred". *)
Theorem dispatch_never_raises (w : env M) hist request :
  ∃ r t,
    run w hist (dispatch request) = (Returned r, t)
    ∧ match w _ hist (CallNext request) with
      | Returned response =>
          r = FromHandler response
          ∧ t = [ Event (CallNext request) (Returned response) ]
      | Raised e =>
          ∃ j, r = Json j
               ∧ status_code j ∈ [400; 403; 404; 500]%Z
               ∧ (if (status_code j =? 500)%Z
                  then message j = "An unexpected error occurred"
                       ∧ details j = Some (exn_str e)
                  else message j = exn_str e ∧ details j = None)
      end.
Proof.
  unfold Middleware.dispatch. simpl.
  destruct (w _ hist (CallNext request)) as [response|e]; simpl.
  - by do 2 eexists.
  - destruct (isinstance e "ValueError"); [|destruct (isinstance e "PermissionError");
      [|destruct (isinstance e "FileNotFoundError")]]; simpl; answer_all w.
    all: do 2 eexists; split; [reflexivity|]; eexists; split; [reflexivity|]; cbn.
    all: split; [|done].
    all: repeat first [apply list_elem_of_here | apply list_elem_of_further].
Qed.

Lemma has_wildcard_spec origins : has_wildcard origins = true ↔ "*" ∈ origins.
Proof.
  unfold has_wildcard. rewrite existsb_exists. split.
  - intros (x & Hin & Heq). apply String.eqb_eq in Heq as <-. by apply list_elem_of_In.
  - intros Hin. exists "*". split; [by apply list_elem_of_In | apply String.eqb_refl].
Qed.

(** X19. [setup_all_middleware] registers the request logging middleware
    first when it is enabled, then the error handling middleware, then the
    CORS middleware, and nothing else.  The CORS origins are the given
    ones, or ["*"] when none are given, and credentials are allowed exactly
    when "*" is not among the origins: never with the wildcard. *)
Theorem setup_all_middleware_order_and_cors
    (w : env setupE) hist allow_origins enable_request_logging :
  ∃ t allow_credentials,
    run w hist (setup_all_middleware allow_origins enable_request_logging)
    = (Returned (), t)
    ∧ omap added t
      = (if enable_request_logging then [RequestLoggingMiddleware] else [])
        ++ [ ErrorHandlingMiddleware;
             CORSMiddleware (default ["*"] allow_origins) allow_credentials
               ["*"] ["*"] ["*"] ]
    ∧ (allow_credentials = true ↔ "*" ∉ default ["*"] allow_origins)
    ∧ (allow_origins = None → allow_credentials = false).
Proof.
  unfold Middleware.setup_all_middleware, setup_request_logging,
    setup_error_handling, setup_cors.
  exists (snd (run w hist
                 (Middleware.setup_all_middleware repr_list allow_origins
                    enable_request_logging))),
         (negb (has_wildcard (default ["*"] allow_origins))).
  split_and!.
  - destruct enable_request_logging; simpl; answer_all w; reflexivity.
  - unfold Middleware.setup_all_middleware, setup_request_logging,
      setup_error_handling, setup_cors.
    destruct enable_request_logging; simpl; answer_all w;
      by destruct (has_wildcard _).
  - rewrite <-has_wildcard_spec. by destruct (has_wildcard _).
  - by intros ->.
Qed.

End MiddlewareFacts.

(** ** [serve_frontend] *)

Section FrontendFacts.
Import Py IO Frontend.
Context {Path : Type}.
Context (static_dir : Path) (joinpath : Path → string → Path).
Local Abbreviation F := (@fsE Path).
Local Abbreviation serve_frontend := (serve_frontend static_dir joinpath).

Lemma prefix_append p rest : String.prefix p (p +:+ rest) = true.
Proof.
  induction p as [|c p IH]; [by destruct rest|].
  change (String c p +:+ rest) with (String c (p +:+ rest)). cbn [String.prefix].
  by destruct (ascii_dec c c).
Qed.

(** X20. A path that begins with "research", "health", "docs", "redoc" or
    "openapi.json" is answered 404 "Not found" whatever follows the prefix,
    and the file system is not consulted: no file of that name is ever
    served. *)
Theorem serve_frontend_refuses_api_prefixes prefix rest :
  prefix ∈ api_prefixes →
  serve_frontend (prefix +:+ rest) = Ret (NotFound "Not found")
  ∧ ∀ (w : env F) hist,
      run w hist (serve_frontend (prefix +:+ rest))
      = (Returned (NotFound "Not found"), []).
Proof.
  intros Hin.
  assert (startswith_any api_prefixes (prefix +:+ rest) = true) as Hstart.
  { unfold startswith_any. apply existsb_exists. exists prefix.
    split; [by apply list_elem_of_In | apply prefix_append]. }
  unfold Frontend.serve_frontend. by rewrite Hstart.
Qed.


End FrontendFacts.

(** ** [get_chat_client] *)

Section ServerFacts.
Import Py IO Server ServerSpec.
Context {credential client : Type}.
Local Abbreviation S := (@serverE credential client).
Local Abbreviation get_chat_client := (@get_chat_client credential client).
Implicit Types (w : env S) (hist t : list (event S)).

(** X22. When [AZURE_OPENAI_ENDPOINT] is unset or empty, [get_chat_client]
    raises the [ValueError] "AZURE_OPENAI_ENDPOINT environment variable is
    required"; no credential is created and no client is asked for. *)
Theorem get_chat_client_requires_endpoint w hist endpoint :
  environ_is w "AZURE_OPENAI_ENDPOINT" endpoint →
  present endpoint = None →
  ∃ t,
    run w hist get_chat_client
    = (Raised (Exn "ValueError"
                 "AZURE_OPENAI_ENDPOINT environment variable is required" None), t)
    ∧ omap client_request t = []
    ∧ omap credential_attempt t = [].
Proof.
  intros Hendpoint Hmissing. unfold Server.get_chat_client. simpl.
  rewrite (Hendpoint hist), Hmissing. simpl. by eexists.
Qed.

(** X23. With an endpoint, [get_chat_client] asks for at most one client,
    for that endpoint and for the deployment name of the environment
    ("gpt-4o" when it is unset).  When [AZURE_OPENAI_API_KEY] is set and not
    empty the client is asked for with that key and no credential is
    created.  Otherwise the default credential is tried, the CLI credential
    only after the default one failed, and the client is asked for with the
    credential obtained; when both fail the exception of the CLI credential
    is raised and no client is asked for. *)
Theorem get_chat_client_chooses_authentication
    w hist endpoint deployment api_key o t :
  environ_is w "AZURE_OPENAI_ENDPOINT" (Some endpoint) →
  endpoint ≠ "" →
  environ_is w "AZURE_OPENAI_DEPLOYMENT_NAME" deployment →
  environ_is w "AZURE_OPENAI_API_KEY" api_key →
  run w hist get_chat_client = (o, t) →
  let name := default "gpt-4o" deployment in
  match present api_key with
  | Some key =>
      omap client_request t = [ (ApiKey key, endpoint, name) ]
      ∧ omap credential_attempt t = []
  | None =>
      (∃ c, omap client_request t = [ (Credential c, endpoint, name) ]
            ∧ (omap credential_attempt t = [ (DefaultCredential, true) ]
               ∨ omap credential_attempt t
                 = [ (DefaultCredential, false); (CliCredential, true) ]))
      ∨ (∃ e, o = Raised e
              ∧ omap client_request t = []
              ∧ omap credential_attempt t
                = [ (DefaultCredential, false); (CliCredential, false) ])
  end.
Proof.
  intros Hendpoint Hne Hdeployment Hkey. unfold Server.get_chat_client. simpl.
  rewrite (Hendpoint hist), (Hdeployment _), (Hkey _).
  destruct endpoint as [|c endpoint]; [done|]. cbn [present].
  destruct (present api_key) as [key|]; simpl; answer_all w.
  all: intros [= <- <-]; cbn; eauto 10.
Qed.

End ServerFacts.

(** ** [create_app] *)

Section MainFacts.
Import Py IO Middleware Main MoreSpec.
Context {Path : Type}.
Context (static_dir : Path) (joinpath : Path → string → Path).
Context (path_str : Path → string).
Context (repr_list : list string → string).
Local Abbreviation A := (@mainE Path).
Local Abbreviation create_app := (create_app static_dir joinpath path_str repr_list).

Lemma split_char_nonempty sep s : split_char sep s ≠ [].
Proof.
  destruct s as [|c s]; [done|]. cbn [split_char].
  destruct (Ascii.eqb c sep); [done|]. by destruct (split_char sep s).
Qed.

(** Joining what was split gives the string back. *)
Lemma join_split_char sep s : join (String sep "") (split_char sep s) = s.
Proof.
  induction s as [|c s IH]; [done|]. cbn [split_char].
  pose proof (split_char_nonempty sep s) as Hne.
  destruct (Ascii.eqb_spec c sep) as [->|Hc].
  - destruct (split_char sep s) as [|piece pieces]; [done|].
    rewrite join_cons, IH. done.
  - destruct (split_char sep s) as [|piece pieces]; [done|].
    destruct pieces as [|piece' pieces].
    + rewrite join_singleton in *. by rewrite IH.
    + rewrite join_cons in *.
      change (String c piece +:+ String sep "" +:+ join (String sep "") (piece' :: pieces))
        with (String c (piece +:+ String sep "" +:+ join (String sep "") (piece' :: pieces))).
      by rewrite IH.
Qed.

Local Arguments split_char : simpl never.
Local Arguments lower : simpl never.
Local Arguments has_wildcard : simpl never.

(** Names every answer of the environment [w] in the goal, and takes the
    cases of those that are not strings. *)
Ltac name_answers w :=
  repeat (match goal with
          | |- context [w ?X ?h ?ev] =>
              let x := fresh "x" in
              generalize (w X h ev); intro x;
              lazymatch type of x with
              | string => idtac
              | _ => destruct x
              end
          end; simpl).

(** X24. Whatever the environment and however it ends, [create_app] reads
    [CORS_ORIGINS] and [ENABLE_REQUEST_LOGGING] once each and registers, in
    this order, the request logging middleware when the second variable is
    "true" in any letter case, the error handling middleware, and the CORS
    middleware.  The CORS origins are the first variable cut at its commas:
    at least one origin, nothing trimmed, so that joining them with commas
    gives the variable back; credentials are allowed exactly when no origin
    is "*". *)
Theorem create_app_configures_middleware_from_environment (w : env A) hist :
  ∃ o t cors_origins request_logging allow_credentials,
    run w hist create_app = (o, t)
    ∧ omap read_variable t
      = [ ("CORS_ORIGINS", cors_origins);
          ("ENABLE_REQUEST_LOGGING", request_logging) ]
    ∧ omap registered t
      = (if String.eqb (lower request_logging) "true"
         then [RequestLoggingMiddleware] else [])
        ++ [ ErrorHandlingMiddleware;
             CORSMiddleware (split_char (ascii_of_nat 44) cors_origins)
               allow_credentials ["*"] ["*"] ["*"] ]
    ∧ split_char (ascii_of_nat 44) cors_origins ≠ []
    ∧ join "," (split_char (ascii_of_nat 44) cors_origins) = cors_origins
    ∧ (allow_credentials = true
       ↔ "*" ∉ split_char (ascii_of_nat 44) cors_origins).
Proof.
  destruct (run w hist create_app) as [o t] eqn:Hrun.
  exists o, t. revert Hrun.
  unfold Main.create_app, setup_all_middleware, setup_request_logging,
    setup_error_handling, setup_cors. simpl.
  name_answers w.
  match goal with
  | |- context [String.eqb (lower ?s) "true"] =>
      destruct (String.eqb (lower s) "true") eqn:Hlogging
  end; simpl; name_answers w.
  all: intros [= <- <-]; do 3 eexists; cbn; rewrite ?Hlogging.
  all: split; [reflexivity|]; split; [reflexivity|]; split; [reflexivity|].
  all: split; [apply split_char_nonempty|]; split; [apply join_split_char|].
  all: rewrite <-has_wildcard_spec; by destruct (has_wildcard _).
Qed.

End MainFacts.

(** ** [security_audit.py] *)

Section AuditFacts.
Import Py IO SecurityAudit.
Context {Path : Type}.
Context (sys_executable : string) (backend_path frontend_path : Path).
Context (isinstance : exn → string → bool).
Local Abbreviation U := (@auditE Path).
Local Abbreviation main :=
  (main sys_executable backend_path frontend_path isinstance).
Implicit Types (w : env U) (hist t : list (event U)).

(** Case analysis on every answer of [w] and on every class test in the
    goal. *)
Ltac audit_cases w :=
  repeat (first
            [ match goal with
              | |- context [w ?X ?h ?ev] => destruct (w X h ev)
              end
            | match goal with
              | |- context [isinstance ?e "FileNotFoundError"] =>
                  destruct (isinstance e "FileNotFoundError") eqn:?
              end ]; simpl).

(** X25. When every exception of [subprocess.run] other than
    [CalledProcessError] is a [FileNotFoundError], [main] returns: it
    prints the opening line, runs [pip_audit] in the backend directory and
    then [npm audit] in the frontend directory, whatever the first one did,
    and prints the closing line last.  A non-zero exit status of an audit
    is printed and nothing more. *)
Theorem audit_main_runs_both_audits w hist o t :
  run w hist main = (o, t) →
  (∀ e, Some e ∈ other_error <$> t → isinstance e "FileNotFoundError" = true) →
  o = Returned ()
  ∧ omap ran t
    = [ ([sys_executable; "-m"; "pip_audit"], backend_path);
        (["npm"; "audit"], frontend_path) ]
  ∧ head (omap printed t) = Some "Starting security dependency audit..."
  ∧ last (omap printed t) = Some (nl +:+ "Security audit completed.").
Proof.
  unfold SecurityAudit.main, audit_python, audit_node, except_file_not_found,
    run_command. simpl. audit_cases w.
  all: intros [= <- <-] Hknown; cbn in Hknown; try done.
  all: exfalso;
    match goal with
    | H : isinstance ?e _ = false |- _ =>
        rewrite Hknown in H; [done|];
        repeat first [apply list_elem_of_here | apply list_elem_of_further]
    end.
Qed.

(** X26. When [subprocess.run] raises an exception that is neither a
    [CalledProcessError] nor a [FileNotFoundError], [main] raises that
    exception and the closing line is not printed. *)
Theorem audit_main_propagates_other_errors w hist o t e :
  run w hist main = (o, t) →
  Some e ∈ other_error <$> t →
  isinstance e "FileNotFoundError" = false →
  o = Raised e
  ∧ nl +:+ "Security audit completed." ∉ omap printed t.
Proof.
  unfold SecurityAudit.main, audit_python, audit_node, except_file_not_found,
    run_command. simpl. audit_cases w.
  all: intros [= <- <-] Hin Hclass; cbn in Hin; member_cases Hin.
  all: try (injection Hin as ->; congruence).
  all: injection Hin as ->; split; [done|].
  all: cbn; intros Hprinted; by member_cases Hprinted.
Qed.

End AuditFacts.

(** ** The further properties on sample runs *)

Section MoreSampleRuns.
Import Py IO Models Tools ToolsSpec MoreSpec DuckDuckGo Samples MoreWorlds.

Local Abbreviation question := "advances in battery recycling".
Local Abbreviation world := (world_answering keywords_reply).
Local Abbreviation google :=
  (search_google (response:=string) (SearchResult:=sample_result)
     (λ r, r.1.1) (λ r, r.1.2) (λ r, r.2) (λ _, "google") (λ _, 1 # 1)).

Lemma search_google_sample_success :
  ∃ d t,
    run world [] (google question 10) = (Returned d, t)
    ∧ ∃ found : list sample_result,
        sr_results_count d = length found ∧ length found = 1.
Proof.
  do 2 eexists. split; [reflexivity|].
  destruct (search_google_success_converts_in_order
              (response:=string) (λ r, r.1.1) (λ r, r.1.2) (λ r, r.2)
              (λ _, "google") (λ _, 1 # 1) world [] question 10%Z _ _ eq_refl eq_refl)
    as (query_id & found & Ht & _ & Hcount).
  exists found. split; [exact Hcount|]. by injection Ht as _ <-.
Defined.

Lemma plan_sample_partition :
  ∃ d t,
    run (world_answering many_keywords_reply) [] (create_research_plan question None)
    = (Returned d, t)
    ∧ concat (step_keywords <$> plan_search_steps d) = ["k1"; "k2"; "k3"; "k4"; "k5"].
Proof.
  do 2 eexists. split; [reflexivity|].
  destruct (plan_steps_partition_keywords
              (world_answering many_keywords_reply) [] question None _ _ eq_refl eq_refl)
    as (Hconcat & _).
  exact Hconcat.
Defined.

Lemma plan_sample_requests :
  ∃ d t,
    run (world_answering many_keywords_reply) [] (create_research_plan question None)
    = (Returned d, t)
    ∧ omap sent_temperature t = [ 3 # 10; 5 # 10 ].
Proof.
  do 2 eexists. split; [reflexivity|].
  destruct (plan_requests_keywords_then_strategy
              (world_answering many_keywords_reply) [] question None _ _ eq_refl eq_refl)
    as (first & second & _ & Htemp & _).
  exact Htemp.
Defined.

Lemma result_c_is_not_text : ¬ has_text_snippet result_c.
Proof. by intros [s Hs]. Qed.

Lemma non_text_snippet_sample :
  ∃ o t,
    run world [] (synthesize_answer question (Some [result_a; result_c])) = (o, t)
    ∧ omap sent_messages t = [].
Proof.
  do 2 eexists. split; [reflexivity|].
  refine (proj1 (synthesize_answer_rejects_non_text_snippet
                   world [] question [result_a; result_c] _ _ _ _ eq_refl)).
  - discriminate.
  - intros Hall. apply Forall_cons in Hall as [_ Hall].
    apply Forall_cons in Hall as [Hc _]. by apply result_c_is_not_text.
Defined.

Lemma keywords_sample_round_trip :
  parse_keywords (join nl ["battery recycling"; "lithium recovery"])
  = ["battery recycling"; "lithium recovery"].
Proof.
  apply parse_keywords_reads_back_joined_keywords.
  repeat constructor; try (eexists; split; reflexivity).
  all: intros Hin; vm_compute in Hin; by member_cases Hin.
Defined.

Lemma answer_sample_content :
  ∃ d t,
    run world [] (synthesize_answer question (Some [result_a])) = (Returned d, t)
    ∧ ans_content d = "Recycling recovers metals [1].".
Proof.
  do 2 eexists. split; [reflexivity|].
  destruct (answer_content_is_stripped_text world [] question [result_a] _ _
              ltac:(discriminate) eq_refl eq_refl)
    as (text & Htext & Hcontent & _).
  injection Htext as <-. exact Hcontent.
Defined.

Lemma ddg_sample_results :
  ∃ results t,
    run world_ddg_up [] (search sample_init question "query-1" 2) = (Returned results, t)
    ∧ ∃ items : list (gmap string pyval), length results = length items.
Proof.
  do 2 eexists. split; [reflexivity|].
  destruct (search_returns_one_result_per_item sample_init world_ddg_up []
              question "query-1" 2%Z _ _ eq_refl)
    as (items & _ & _ & Hlen).
  by exists items.
Defined.

Lemma ddg_sample_invalid_item :
  ∃ e t,
    run (world_ddg_items [ddg_item; ddg_item_without_link]) []
        (search sample_init question "query-1" 10)
    = (Raised (wrapped e), t).
Proof.
  destruct (search_raises_when_an_item_is_invalid sample_init
              (world_ddg_items [ddg_item; ddg_item_without_link]) []
              question "query-1" 10%Z [ddg_item; ddg_item_without_link] eq_refl)
    as (item & e & _ & _ & Hrun).
  - apply Exists_cons_tl, Exists_cons_hd. reflexivity.
  - by do 2 eexists.
Defined.

Lemma ddg_sample_wrapped :
  ∃ e, exn_cause (wrapped network_error) = Some e ∧ e = network_error.
Proof.
  destruct (search_failures_are_wrapped sample_init world_ddg_down []
              question "query-1" [] 10%Z (wrapped network_error) _
              (or_introl eq_refl))
    as (e & _ & _ & _ & Hcause).
  exists e. split; [exact Hcause|]. by injection Hcause as <-.
Defined.

Lemma ddg_sample_asks_ten :
  ∃ o t asked answer,
    run world_ddg_up [] (search sample_init question "query-1" 25) = (o, t)
    ∧ t = [ Event (DdgsText question asked) answer ]
    ∧ (asked ≤ 10)%Z.
Proof.
  destruct (search_asks_for_at_most_ten sample_init world_ddg_up []
              question "query-1" 25%Z _ _ eq_refl)
    as (asked & answer & Ht & Hle & _).
  do 2 eexists. exists asked, answer. split; [reflexivity|].
  split; [exact Ht | exact Hle].
Defined.

End MoreSampleRuns.

Section MoreSampleRequests.
Import Py IO Models Routes RoutesSpec Samples.

Local Abbreviation post := (post_research sample_source_of_value sample_handler).


(** No source at all is one error, an empty list of sources another. *)
Example missing_sources_rejected :
  validate sample_source_of_value
    {| body_content := Some (VStr "advances in battery recycling");
       body_search_sources := None |}
  = inl [("search_sources", Missing)].
Proof. reflexivity. Qed.

(** A question of white space only is accepted as it is. *)
Example blank_question_accepted :
  validate sample_source_of_value
    {| body_content := Some (VStr "   "); body_search_sources := Some [VStr "arxiv"] |}
  = inr {| content := "   "; search_sources := [ARXIV] |}.
Proof. reflexivity. Qed.

End MoreSampleRequests.

Section MoreSampleServices.
Import Py IO Models Samples MoreSamples MoreWorlds.
Import ArxivTool.

Local Abbreviation arxiv :=
  (search_arxiv (SearchResult:=sample_result) (authors:=list string)
     (λ r, r.1.1) (λ r, r.1.2) (λ r, r.2) (λ _, "arxiv") (λ _, 1 # 1)
     (λ _, []) (λ _, "")).

Lemma search_arxiv_sample :
  ∃ d t,
    run world_arxiv_up [] (arxiv "battery recycling" 5) = (Returned d, t)
    ∧ ar_source d = "arxiv"
    ∧ ar_results_count d = length (ar_results d).
Proof.
  do 2 eexists. split; [reflexivity|].
  destruct (search_arxiv_reply_is_consistent
              (authors:=list string)
              (λ r, r.1.1) (λ r, r.1.2) (λ r, r.2) (λ _, "arxiv") (λ _, 1 # 1)
              (λ _, []) (λ _, "") world_arxiv_up [] "battery recycling" 5%Z _ _ eq_refl)
    as (d & Hd & _ & Hsource & Hcount & _).
  injection Hd as <-. by split.
Defined.

(** The arXiv service is down: the dict carries the error and no result. *)
Example search_arxiv_down :
  ∃ t,
    run world_arxiv_down [] (arxiv "battery recycling" 5)
    = (Returned {| ar_query := "battery recycling";
                   ar_source := "arxiv";
                   ar_error := Some "network unreachable";
                   ar_results_count := 0;
                   ar_results := [] |}, t).
Proof. eexists. reflexivity. Qed.

End MoreSampleServices.

Section MoreSampleFrontend.
Import Py IO Frontend MoreWorlds.

Local Abbreviation serve := (serve_frontend "static" sample_joinpath).

Lemma frontend_sample_api_prefix :
  serve "researchers.png" = Ret (NotFound "Not found").
Proof.
  refine (proj1 (serve_frontend_refuses_api_prefixes "static" sample_joinpath
                   "research" "ers.png" _)).
  apply list_elem_of_here.
Defined.


(** The route of a single-page application falls back to the index. *)
Example frontend_serves_index :
  run (world_files ["static/index.html"]) [] (serve "about/team")
  = (Returned (FileResponse "static/index.html"),
     [ Event (IsFile "static/about/team") false;
       Event (Exists "static/index.html") true ]).
Proof. reflexivity. Qed.

(** An absolute path and a path with [".."] are files outside the static
    directory, and they are served. *)
Example frontend_serves_absolute_path :
  run (world_files ["/etc/hostname"]) [] (serve "/etc/hostname")
  = (Returned (FileResponse "/etc/hostname"), [ Event (IsFile "/etc/hostname") true ]).
Proof. reflexivity. Qed.

Example frontend_serves_parent_path :
  run (world_files ["static/../settings.toml"]) [] (serve "../settings.toml")
  = (Returned (FileResponse "static/../settings.toml"),
     [ Event (IsFile "static/../settings.toml") true ]).
Proof. reflexivity. Qed.

End MoreSampleFrontend.

Section MoreSampleServer.
Import Py IO Server ServerSpec MoreSamples.

Lemma chat_client_sample_no_endpoint :
  ∃ e t,
    run (world_environ [("AZURE_OPENAI_API_KEY", "secret")]) [] get_chat_client
    = (Raised e, t)
    ∧ exn_class e = "ValueError".
Proof.
  destruct (get_chat_client_requires_endpoint
              (world_environ [("AZURE_OPENAI_API_KEY", "secret")]) [] None)
    as (t & Hrun & _).
  - intros hist. reflexivity.
  - reflexivity.
  - do 2 eexists. split; [exact Hrun | reflexivity].
Defined.

Lemma chat_client_sample_api_key :
  ∃ o t,
    run (world_environ [("AZURE_OPENAI_ENDPOINT", "https://example.openai.azure.com");
                        ("AZURE_OPENAI_API_KEY", "secret")]) [] get_chat_client
    = (o, t)
    ∧ omap client_request t
      = [ (ApiKey "secret", "https://example.openai.azure.com", "gpt-4o") ].
Proof.
  do 2 eexists. split; [reflexivity|].
  refine (proj1 (get_chat_client_chooses_authentication
                   (world_environ [("AZURE_OPENAI_ENDPOINT",
                                    "https://example.openai.azure.com");
                                   ("AZURE_OPENAI_API_KEY", "secret")]) []
                   "https://example.openai.azure.com" None (Some "secret")
                   _ _ _ _ _ _ eq_refl)).
  - intros hist. reflexivity.
  - discriminate.
  - intros hist. reflexivity.
  - intros hist. reflexivity.
Defined.

(** Without a key the default credential is tried, then the CLI one. *)
Example chat_client_falls_back_to_cli_credential :
  ∃ t,
    run (world_environ [("AZURE_OPENAI_ENDPOINT", "https://example.openai.azure.com");
                        ("AZURE_OPENAI_API_KEY", "")]) [] get_chat_client
    = (Returned "client for https://example.openai.azure.com", t)
    ∧ omap client_request t
      = [ (Credential 7, "https://example.openai.azure.com", "gpt-4o") ]
    ∧ omap credential_attempt t
      = [ (DefaultCredential, false); (CliCredential, true) ].
Proof. eexists. split_and!; reflexivity. Qed.

End MoreSampleServer.

Section MoreSampleAudit.
Import Py IO SecurityAudit MoreWorlds.

Local Abbreviation audit :=
  (main "/usr/bin/python3" "backend" "frontend" sample_isinstance).

Lemma audit_sample_both_run :
  ∃ t,
    run world_audit [] audit = (Returned (), t)
    ∧ omap ran t
      = [ (["/usr/bin/python3"; "-m"; "pip_audit"], "backend");
          (["npm"; "audit"], "frontend") ].
Proof.
  eexists. split; [reflexivity|].
  refine (proj1 (proj2 (audit_main_runs_both_audits "/usr/bin/python3" "backend"
                          "frontend" sample_isinstance world_audit [] _ _ eq_refl _))).
  intros e He. cbn in He. by member_cases He.
Defined.

Lemma audit_sample_denied :
  ∃ o t, run world_audit_denied [] audit = (o, t) ∧ o = Raised denied.
Proof.
  do 2 eexists. split; [reflexivity|].
  refine (proj1 (audit_main_propagates_other_errors "/usr/bin/python3" "backend"
                   "frontend" sample_isinstance world_audit_denied [] _ _ denied
                   eq_refl _ _)).
  - cbn. repeat first [apply list_elem_of_here | apply list_elem_of_further].
  - reflexivity.
Defined.

End MoreSampleAudit.

